(** * deplock: validation of a Poetry lock and selection of distributions

    A shallow embedding of [deplock/configs/poetry_lock.py] (the typed lock
    model) and of [deplock/parser/poetry.py]: the three stages
    [validate_poetry_lock], [get_valid_packages_from_lock] and
    [get_preferred_distributions], [add_target_environment_specification], and
    the constructor with its search for the lock file and its loading of it.

    The methods of [PoetryLock] mutate the object and may raise; they are
    embedded in a state-and-exception monad over a record of the object's
    fields that also collects the calls made to the module's logger.  A raised
    exception keeps the fields as they were when it was raised, as in Python. *)

From Stdlib Require Import String Ascii List Bool Arith Lia Permutation.
Import ListNotations.
Local Open Scope list_scope.
Local Open Scope string_scope.

(** ** Python strings *)

Fixpoint is_prefix (p s : list ascii) : bool :=
  match p, s with
  | [], _ => true
  | _ :: _, [] => false
  | a :: p', b :: s' => Ascii.eqb a b && is_prefix p' s'
  end.

(** [s.startswith(p)] *)
Definition startswith (s p : string) : bool :=
  is_prefix (list_ascii_of_string p) (list_ascii_of_string s).

(** [s.endswith(p)]: [p] read backwards starts [s] read backwards. *)
Definition endswith (s p : string) : bool :=
  is_prefix (rev (list_ascii_of_string p)) (rev (list_ascii_of_string s)).

(** [sub in s] *)
Definition contains (s sub : string) : Prop :=
  exists before after, s = before ++ sub ++ after.

(** Truth value of an [Optional[str]]: [None] and the empty string are false. *)
Definition truthy (o : option string) : bool :=
  match o with
  | Some s => negb (s =? "")
  | None => false
  end.

(** ** The lock model ([deplock/configs/poetry_lock.py]) *)

Module PoetryFile.
Record t := mk { file : string; hash : string }.
End PoetryFile.

Module PoetrySource.
Record t := mk {
    type : option string;
    url : option string;
    reference : option string }.
End PoetrySource.

Module PoetryDependency.
Record t := mk {
    name : string;
    constraint : option string;
    optional : option bool;
    python_versions : option string;
    marker : option string }.
End PoetryDependency.

Module PoetryPackage.
Record t := mk {
    name : string;
    version : string;
    category : string;
    optional : bool;
    python_versions : option string;
    files : list PoetryFile.t;
    source : option PoetrySource.t;
    dependencies : list PoetryDependency.t }.
End PoetryPackage.

Module PoetryLockMetadata.
Record t := mk {
    lock_version : string;
    python_versions : option string;
    content_hash : option string }.
End PoetryLockMetadata.

Module PoetryLockConfig.
Record t := mk {
    metadata : PoetryLockMetadata.t;
    packages : list PoetryPackage.t }.
End PoetryLockConfig.

(** Modelled from the spec: [deplock.types.requirement.PythonRequirement] is
    not among the sources; the record holds the four arguments the selector
    passes to its constructor (the spec's ResolvedRequirement: name, version,
    fingerprint, index URL). *)
Module PythonRequirement.
Record t := mk {
    name : string;
    version : string;
    fingerprint : string;
    index_url : option string }.
End PythonRequirement.

(** ** Exceptions and log records *)

(** The classes of [deplock.exceptions] that the three stages raise, and the
    [AttributeError] Python raises on [None.supported_tags()]. *)
Inductive Exception : Type :=
| MissingPythonEnvironmentError (msg : string)
| MissingLockMetadataError (msg : string)
| IncompatibleDistributionError (msg : string)
| InvalidLockVersionError
| InvalidLockFileError (msg : string)
| AttributeError (msg : string).

(** What a method emits besides its result: a call [logger.debug(msg)] (the
    stages log at no other level) or a call [warnings.warn(msg)]. *)
Inductive Emitted : Type :=
| LoggerDebug (msg : string)
| WarningsWarn (msg : string).

(** ** What the stages use and the sources do not define

    [PythonEnvironment] ([deplock.types.environment]) with its attribute
    [python_version] and its method [supported_tags]; the predicate
    [validate_python_version] ([deplock.utils.markers]), called with a specifier
    and the environment's version and used as a truth value; and Poetry's
    [Wheel(filename).get_minimum_supported_index(tags)], [None] when no tag of
    the wheel is in [tags].  They are parameters of the development, taken as
    total functions: an exception raised inside them (a specifier or a wheel
    name that does not parse) is not part of the model.  [format_version] is
    the text an f-string gives for the version. *)
Class Externals : Type := {
  PythonEnvironment : Type;
  Version : Type;
  Tag : Type;
  python_version : PythonEnvironment -> Version;
  supported_tags : PythonEnvironment -> list Tag;
  format_version : Version -> string;
  validate_python_version : string -> Version -> bool;
  get_minimum_supported_index : string -> list Tag -> option nat }.

(** ** The object and its methods ([deplock/parser/poetry.py]) *)

Section Stages.
Context `{Externals}.

(** The attributes of a [PoetryLock] that the stages read and write.  [data]
    is what [_parse_poetry_lock] returned; the paths of [__init__] serve only to
    find the file. *)
Record PoetryLock : Type := mkPoetryLock {
  data : PoetryLockConfig.t;
  python_target_env_spec : option PythonEnvironment;
  poetry_lock_is_validated : bool;
  valid_package_list : option (list PoetryPackage.t);
  package_requirements : option (list PythonRequirement.t) }.

(** The attributes as [__init__] leaves them. *)
Definition init (parsed : PoetryLockConfig.t) : PoetryLock :=
  mkPoetryLock parsed None false None None.

(** A call of a method on [self]: the value returned or the exception raised,
    the object afterwards, what was emitted in order. *)
Record Outcome (A : Type) : Type := mkOutcome {
  value : Exception + A;
  after : PoetryLock;
  emitted : list Emitted }.
Arguments mkOutcome {A}.
Arguments value {A}.
Arguments after {A}.
Arguments emitted {A}.

Definition Method (A : Type) : Type := PoetryLock -> Outcome A.

Definition ret {A : Type} (a : A) : Method A :=
  fun self => mkOutcome (inr a) self [].

Definition raise {A : Type} (e : Exception) : Method A :=
  fun self => mkOutcome (inl e) self [].

Definition bind {A B : Type} (m : Method A) (k : A -> Method B) : Method B :=
  fun self =>
    let r := m self in
    match value r with
    | inl e => mkOutcome (inl e) (after r) (emitted r)
    | inr a =>
        let r' := k a (after r) in
        mkOutcome (value r') (after r') (emitted r ++ emitted r')
    end.

Definition get_self : Method PoetryLock :=
  fun self => mkOutcome (inr self) self [].

Definition assign (update : PoetryLock -> PoetryLock) : Method unit :=
  fun self => mkOutcome (inr tt) (update self) [].

Definition emit (e : Emitted) : Method unit :=
  fun self => mkOutcome (inr tt) self [e].

Notation "x <- c1 ;; c2" := (bind c1 (fun x => c2))
  (at level 61, c1 at next level, right associativity).
Notation "c1 ;; c2" := (bind c1 (fun _ => c2))
  (at level 61, right associativity).

(** [for x in xs: body(x)], left as soon as a body raises. *)
Fixpoint for_each {A : Type} (xs : list A) (body : A -> Method unit) : Method unit :=
  match xs with
  | [] => ret tt
  | x :: rest => body x ;; for_each rest body
  end.

Definition set_python_target_env_spec (v : option PythonEnvironment) (self : PoetryLock) :=
  mkPoetryLock (data self) v (poetry_lock_is_validated self)
    (valid_package_list self) (package_requirements self).

Definition set_poetry_lock_is_validated (v : bool) (self : PoetryLock) :=
  mkPoetryLock (data self) (python_target_env_spec self) v
    (valid_package_list self) (package_requirements self).

Definition set_valid_package_list (v : option (list PoetryPackage.t)) (self : PoetryLock) :=
  mkPoetryLock (data self) (python_target_env_spec self) (poetry_lock_is_validated self)
    v (package_requirements self).

Definition set_package_requirements (v : option (list PythonRequirement.t)) (self : PoetryLock) :=
  mkPoetryLock (data self) (python_target_env_spec self) (poetry_lock_is_validated self)
    (valid_package_list self) v.

Definition set_data (v : PoetryLockConfig.t) (self : PoetryLock) :=
  mkPoetryLock v (python_target_env_spec self) (poetry_lock_is_validated self)
    (valid_package_list self) (package_requirements self).

(** [PoetryLock.add_target_environment_specification] *)
Definition add_target_environment_specification
    (python_environment : PythonEnvironment) : Method unit :=
  self <- get_self ;;
  (match python_target_env_spec self with
   | Some _ =>
       emit (WarningsWarn
         "Environment specification has already been set and will be overwritten.")
   | None => ret tt
   end) ;;
  assign (set_python_target_env_spec (Some python_environment)).

(** The test both the validator and the filter make on a [python_versions]
    attribute: a specifier that is [None] or empty is not evaluated. *)
Definition valid_py_version (python_versions : option string)
    (env : PythonEnvironment) : bool :=
  match python_versions with
  | Some specifier =>
      if truthy (Some specifier)
      then validate_python_version specifier (python_version env)
      else true
  | None => true
  end.

(** [PoetryLock.validate_poetry_lock] *)
Definition validate_poetry_lock : Method unit :=
  self <- get_self ;;
  match python_target_env_spec self with
  | None => raise (MissingPythonEnvironmentError "No Python environment specified")
  | Some env =>
      let metadata := PoetryLockConfig.metadata (data self) in
      if negb (startswith (PoetryLockMetadata.lock_version metadata) "2.")
      then raise InvalidLockVersionError
      else
        if negb (valid_py_version (PoetryLockMetadata.python_versions metadata) env)
        then raise (InvalidLockFileError
               "Poetry lock file not compatible with target Python version")
        else assign (set_poetry_lock_is_validated true)
  end.

(** [self.valid_package_list.append(package)] *)
Definition append_valid_package (package : PoetryPackage.t) : Method unit :=
  self <- get_self ;;
  match valid_package_list self with
  | Some l => assign (set_valid_package_list (Some (l ++ [package])%list))
  | None => raise (AttributeError "'NoneType' object has no attribute 'append'")
  end.

Definition not_compatible_message (env : PythonEnvironment)
    (package : PoetryPackage.t) : string :=
  "Package " ++ PoetryPackage.name package
  ++ " is not compatible with the target Python version "
  ++ format_version (python_version env) ++ ".".

(** The body of the filter's loop. *)
Definition keep_if_valid (env : PythonEnvironment) (package : PoetryPackage.t)
    : Method unit :=
  if negb (valid_py_version (PoetryPackage.python_versions package) env)
  then emit (LoggerDebug (not_compatible_message env package))
  else append_valid_package package.

(** [PoetryLock.get_valid_packages_from_lock] *)
Definition get_valid_packages_from_lock : Method (option (list PoetryPackage.t)) :=
  self <- get_self ;;
  match python_target_env_spec self with
  | None => raise (MissingPythonEnvironmentError "No Python environment specified")
  | Some env =>
      assign (set_valid_package_list (Some [])) ;;
      for_each (PoetryLockConfig.packages (data self)) (keep_if_valid env) ;;
      self' <- get_self ;;
      ret (valid_package_list self')
  end.

(** [is_platform_specific]: [any] of the list of binary distributions whose
    file does not end in [none-any.whl]; a [PoetryFile] is always true. *)
Definition is_platform_specific (distributions : list PoetryFile.t) : bool :=
  let binary_distributions :=
    filter (fun dist => endswith (PoetryFile.file dist) ".whl") distributions in
  existsb (fun _ => true)
    (filter (fun dist => negb (endswith (PoetryFile.file dist) "none-any.whl"))
       binary_distributions).

(** One turn of [for dist in distributions], on the pair
    [(best_dist, min_tag_index)]. *)
Definition consider (supported : list Tag) (platform_specific : bool)
    (state : option PoetryFile.t * option nat) (dist : PoetryFile.t)
    : option PoetryFile.t * option nat :=
  let '(best_dist, min_tag_index) := state in
  let filename := PoetryFile.file dist in
  if endswith filename ".whl" then
    match get_minimum_supported_index filename supported with
    | Some matched_index =>
        if match min_tag_index with
           | None => true
           | Some m => Nat.ltb matched_index m
           end
        then (Some dist, Some matched_index)
        else state
    | None => state
    end
  else
    if negb platform_specific && endswith filename ".tar.gz"
       && match best_dist with None => true | Some _ => false end
    then (Some dist, min_tag_index)
    else state.

(** [best_dist] when the loop over the distributions of a package ends. *)
Definition best_dist (supported : list Tag) (distributions : list PoetryFile.t)
    : option PoetryFile.t :=
  fst (fold_left (consider supported (is_platform_specific distributions))
         distributions (None, None)).

Definition incompatible_message (package : PoetryPackage.t) : string :=
  "Could not find a distribution for "
  ++ PoetryPackage.name package ++ "==" ++ PoetryPackage.version package
  ++ " that is compatible with target environment.".

Definition found_message (dist : PoetryFile.t) : string :=
  "Found compatible distribution for target environment: " ++ PoetryFile.file dist.

(** [source_url]: the URL of the package's source when both are true. *)
Definition source_url (package : PoetryPackage.t) : option string :=
  match PoetryPackage.source package with
  | Some source =>
      if truthy (PoetrySource.url source) then PoetrySource.url source else None
  | None => None
  end.

Definition requirement (package : PoetryPackage.t) (dist : PoetryFile.t)
    : PythonRequirement.t :=
  PythonRequirement.mk (PoetryPackage.name package) (PoetryPackage.version package)
    (PoetryFile.hash dist) (source_url package).

(** [self.package_requirements.append(r)] *)
Definition append_requirement (r : PythonRequirement.t) : Method unit :=
  self <- get_self ;;
  match package_requirements self with
  | Some l => assign (set_package_requirements (Some (l ++ [r])%list))
  | None => raise (AttributeError "'NoneType' object has no attribute 'append'")
  end.

(** The body of the selector's loop over the valid packages. *)
Definition select_distribution (supported : list Tag) (package : PoetryPackage.t)
    : Method unit :=
  match best_dist supported (PoetryPackage.files package) with
  | None => raise (IncompatibleDistributionError (incompatible_message package))
  | Some dist =>
      emit (LoggerDebug (found_message dist)) ;;
      append_requirement (requirement package dist)
  end.

Definition not_validated_message : string :=
  "Packages have not been validated against the current Python environment. Specify a target environment and validate lock file against this environment before continuing.".

(** [PoetryLock.get_preferred_distributions] *)
Definition get_preferred_distributions
    : Method (option (list PythonRequirement.t)) :=
  self <- get_self ;;
  match valid_package_list self with
  | None | Some [] => raise (MissingLockMetadataError not_validated_message)
  | Some packages =>
      assign (set_package_requirements (Some [])) ;;
      match python_target_env_spec self with
      | None => raise (AttributeError
                  "'NoneType' object has no attribute 'supported_tags'")
      | Some env =>
          let supported := supported_tags env in
          for_each packages (select_distribution supported) ;;
          self' <- get_self ;;
          ret (package_requirements self')
      end
  end.

(** Validator, then filter, then selector, on one object. *)
Definition resolve : Method (option (list PythonRequirement.t)) :=
  validate_poetry_lock ;;
  get_valid_packages_from_lock ;;
  get_preferred_distributions.

End Stages.

Arguments mkOutcome {H A}.
Arguments value {H A}.
Arguments after {H A}.
Arguments emitted {H A}.

(** ** Locating and loading the lock ([PoetryLock.__init__]) *)

(** A [pathlib] path on a POSIX system: whether it is anchored at the root,
    and its components after the anchor. *)
Module Path.
Record t := mk { absolute : bool; parts : list string }.

(** [p.parent]: the last component dropped; the root and [Path(".")] are their
    own parents. *)
Definition parent (p : t) : t := mk (absolute p) (removelast (parts p)).

Fixpoint parts_eqb (l l' : list string) : bool :=
  match l, l' with
  | [], [] => true
  | x :: r, x' :: r' => String.eqb x x' && parts_eqb r r'
  | _, _ => false
  end.

(** [p == q] *)
Definition eqb (p q : t) : bool :=
  Bool.eqb (absolute p) (absolute q) && parts_eqb (parts p) (parts q).
End Path.

(** Poetry's objects are not among the sources: the records hold the
    attributes that [_parse_poetry_lock] reads from them, already typed as the
    lock model wants them.  An attribute the code tests for truth before taking
    its [str] is an option: [None] when it is false, else its text. *)
Module LockedDependency.
Record t := mk {
  name : string;
  constraint : option string;
  is_optional : bool;
  python_constraint : option string;
  marker : option string }.
End LockedDependency.

Module LockedPackage.
Record t := mk {
  name : string;
  version : string;
  category : string;
  optional : bool;
  python_constraint : option string;
  files : list (string * string);
  source_type : option string;
  source_url : option string;
  source_reference : option string;
  requires : list LockedDependency.t }.
End LockedPackage.

Module Poetry.
Record t := mk {
  is_locked : bool;
  lock_data_metadata : option (list (string * string));
  locked_packages : list LockedPackage.t }.
End Poetry.

(** What the constructor can raise: its own errors, a failed [assert], an
    exception of the stages' kind ([AttributeError]), or whatever Poetry's
    factory raises. *)
Inductive LoadError : Type :=
| NoPoetryLockFileFoundError (msg : string)
| AssertionError
| Raised (e : Exception)
| PoetryError (description : string).

(** The file system and Poetry as the constructor uses them: [Path(s)],
    [p.resolve()], [list(p.glob(pattern))] and
    [Factory().create_poetry(directory)].  They are parameters. *)
Class LockSource : Type := {
  path_of_string : string -> Path.t;
  path_resolve : Path.t -> Path.t;
  path_glob : Path.t -> string -> list Path.t;
  create_poetry : Path.t -> LoadError + Poetry.t }.

(** [d.get(key, default)] on a dictionary with string keys. *)
Fixpoint dict_get (d : list (string * string)) (key default : string) : string :=
  match d with
  | [] => default
  | (k, v) :: rest => if String.eqb k key then v else dict_get rest key default
  end.

(** A [base_path] or [end_dir] argument: [None], a [str], a [Path], or a
    value of another type. *)
Inductive PathArgument : Type :=
| PassNone
| PassStr (s : string)
| PassPath (p : Path.t)
| PassOther.

Section Loading.
Context `{Externals} `{LockSource}.

Definition not_found_message (poetry_lock_filename : string) : string :=
  "No `" ++ poetry_lock_filename ++ "` file found in directory tree.".

(** The loop of [_search_tree_for_lock_file], with [current] given by its
    anchor and its components, the last first: the parent of [current] has the
    components after the first of [below], and [current == current.parent]
    exactly when [below] is empty.  [end_dir] is [None] when the attribute was
    never set. *)
Fixpoint search_loop (end_dir : option Path.t) (poetry_lock_filename : string)
    (absolute : bool) (below : list string) : LoadError + Path.t :=
  let current := Path.mk absolute (rev below) in
  match path_glob current poetry_lock_filename with
  | poetry_lock_file_path :: others =>
      match others with
      | [] => inr poetry_lock_file_path
      | _ :: _ => inl AssertionError
      end
  | [] =>
      match below with
      | [] => inl (NoPoetryLockFileFoundError (not_found_message poetry_lock_filename))
      | _ :: up =>
          match end_dir with
          | None =>
              inl (Raised (AttributeError
                     "'PoetryLock' object has no attribute 'end_dir'"))
          | Some e =>
              if Path.eqb e current
              then inl (NoPoetryLockFileFoundError
                          (not_found_message poetry_lock_filename))
              else search_loop end_dir poetry_lock_filename absolute up
          end
      end
  end.

(** [PoetryLock._search_tree_for_lock_file]; [base_path] is [None] when the
    attribute was never set. *)
Definition _search_tree_for_lock_file (base_path end_dir : option Path.t)
    (poetry_lock_filename : string) : LoadError + Path.t :=
  match base_path with
  | None =>
      inl (Raised (AttributeError "'PoetryLock' object has no attribute 'base_path'"))
  | Some b =>
      let current := path_resolve b in
      search_loop end_dir poetry_lock_filename
        (Path.absolute current) (rev (Path.parts current))
  end.

Definition convert_dependency (dep : LockedDependency.t) : PoetryDependency.t :=
  PoetryDependency.mk (LockedDependency.name dep) (LockedDependency.constraint dep)
    (Some (LockedDependency.is_optional dep))
    (LockedDependency.python_constraint dep) (LockedDependency.marker dep).

Definition convert_package (package : LockedPackage.t) : PoetryPackage.t :=
  PoetryPackage.mk (LockedPackage.name package) (LockedPackage.version package)
    (LockedPackage.category package) (LockedPackage.optional package)
    (LockedPackage.python_constraint package)
    (map (fun file => PoetryFile.mk (fst file) (snd file))
       (LockedPackage.files package))
    (if truthy (LockedPackage.source_type package)
     then Some (PoetrySource.mk (LockedPackage.source_type package)
                  (LockedPackage.source_url package)
                  (LockedPackage.source_reference package))
     else None)
    (map convert_dependency (LockedPackage.requires package)).

(** [PoetryLock._parse_poetry_lock], on the path the search returned. *)
Definition _parse_poetry_lock (poetry_lock_path : Path.t)
    : LoadError + PoetryLockConfig.t :=
  match create_poetry (Path.parent poetry_lock_path) with
  | inl e => inl e
  | inr poetry =>
      if negb (Poetry.is_locked poetry)
      then inl (NoPoetryLockFileFoundError "Poetry lock file does not exist.")
      else
        inr (PoetryLockConfig.mk
               (PoetryLockMetadata.mk "2.0"
                  (Some (dict_get
                           (match Poetry.lock_data_metadata poetry with
                            | Some metadata => metadata
                            | None => []
                            end)
                           "python-versions" ""))
                  None)
               (map convert_package (Poetry.locked_packages poetry)))
  end.

(** The attributes [__init__] sets besides those of [PoetryLock]; [base_path]
    and [end_dir] are [None] when never set. *)
Record Constructed : Type := mkConstructed {
  base_path : option Path.t;
  end_dir : option Path.t;
  poetry_lock_path : Path.t;
  object : PoetryLock }.

(** A call of the constructor: the object or the exception, and what was
    logged. *)
Record Construction : Type := mkConstruction {
  built : LoadError + Constructed;
  logged : list Emitted }.

(** The attribute [base_path] after the first [match] of [__init__]: not set
    for an argument of another type. *)
Definition base_path_attribute (base_path : PathArgument) : option Path.t :=
  match base_path with
  | PassNone => Some (path_of_string ".")
  | PassStr s => Some (path_of_string s)
  | PassPath p => Some p
  | PassOther => None
  end.

(** [PoetryLock.__init__] *)
Definition __init__ (base_path end_dir : PathArgument)
    (poetry_lock_filename : string) : Construction :=
  let self_base_path := base_path_attribute base_path in
  let logged_base :=
    match base_path with
    | PassOther =>
        [LoggerDebug "Value of base_path must be None, str, or pathlib.Path"]
    | _ => []
    end in
  match
    match end_dir with
    | PassNone =>
        match self_base_path with
        | Some b => inr (Some (Path.parent b), [])
        | None =>
            inl (Raised (AttributeError
                   "'PoetryLock' object has no attribute 'base_path'"))
        end
    | PassStr s => inr (Some (path_of_string s), [])
    | PassPath p => inr (Some p, [])
    | PassOther =>
        inr (None,
             [LoggerDebug "Value of end_dir must be None, str, or pathlib.Path"])
    end
  with
  | inl e => mkConstruction (inl e) logged_base
  | inr (self_end_dir, logged_end) =>
      let logged := (logged_base ++ logged_end)%list in
      match _search_tree_for_lock_file self_base_path self_end_dir
              poetry_lock_filename with
      | inl e => mkConstruction (inl e) logged
      | inr found =>
          match _parse_poetry_lock found with
          | inl e => mkConstruction (inl e) logged
          | inr parsed =>
              mkConstruction
                (inr (mkConstructed self_base_path self_end_dir found
                        (init parsed)))
                logged
          end
      end
  end.

(** The directories the search can come to: [current] and those above it up
    to the root, [current] first. *)
Fixpoint lineage (absolute : bool) (below : list string) : list Path.t :=
  Path.mk absolute (rev below)
  :: match below with
     | [] => []
     | _ :: up => lineage absolute up
     end.

Definition ancestors (p : Path.t) : list Path.t :=
  lineage (Path.absolute p) (rev (Path.parts p)).

End Loading.

(** ** The vocabulary of the statements *)

(** The major component of a version string: what precedes its first dot. *)
Fixpoint major_component (version : string) : string :=
  match version with
  | EmptyString => EmptyString
  | String c rest =>
      if Ascii.eqb c "." then EmptyString else String c (major_component rest)
  end.

Section Vocabulary.
Context `{Externals}.

(** A binary distribution: a wheel. *)
Definition is_binary (dist : PoetryFile.t) : Prop :=
  endswith (PoetryFile.file dist) ".whl" = true.

(** A universal-source distribution. *)
Definition is_source (dist : PoetryFile.t) : Prop :=
  endswith (PoetryFile.file dist) ".tar.gz" = true.

(** A wheel with the fully universal tag triple. *)
Definition is_universal (dist : PoetryFile.t) : Prop :=
  endswith (PoetryFile.file dist) "none-any.whl" = true.

(** The wheel [dist] matches the table of supported tags, at index [i] the least. *)
Definition matches (supported : list Tag) (dist : PoetryFile.t) (i : nat) : Prop :=
  is_binary dist /\
  get_minimum_supported_index (PoetryFile.file dist) supported = Some i.

(** No wheel among [distributions] matches the table. *)
Definition none_matches (supported : list Tag) (distributions : list PoetryFile.t)
    : Prop :=
  forall dist i, In dist distributions -> ~ matches supported dist i.

(** An interpreter constraint that is absent: [None], or the empty string the
    loader stores for a lock without one. *)
Definition absent (python_versions : option string) : Prop :=
  python_versions = None \/ python_versions = Some "".

(** The constraint is present and admits (rejects) the environment's version. *)
Definition admits (python_versions : option string) (env : PythonEnvironment)
    : Prop :=
  exists specifier, python_versions = Some specifier /\ specifier <> "" /\
    validate_python_version specifier (python_version env) = true.

Definition rejects (python_versions : option string) (env : PythonEnvironment)
    : Prop :=
  exists specifier, python_versions = Some specifier /\ specifier <> "" /\
    validate_python_version specifier (python_version env) = false.

(** Among [distributions], [dist] matches at index [i], every match before it
    has a greater index and every match after it an index at least [i]: the
    first distribution of least index. *)
Definition first_minimal (supported : list Tag) (distributions : list PoetryFile.t)
    (dist : PoetryFile.t) (i : nat) : Prop :=
  exists before after,
    distributions = (before ++ dist :: after)%list /\
    matches supported dist i /\
    (forall d j, In d before -> matches supported d j -> i < j) /\
    (forall d j, In d after -> matches supported d j -> i <= j).

(** [dist] is the first universal-source distribution of [distributions]. *)
Definition first_source (distributions : list PoetryFile.t) (dist : PoetryFile.t)
    : Prop :=
  exists before after,
    distributions = (before ++ dist :: after)%list /\
    is_source dist /\
    (forall d, In d before -> ~ is_source d).

(** What the selector's inner loop holds in [(best_dist, min_tag_index)] once
    it has gone through the distributions [seen]. *)
Definition scanned (supported : list Tag) (platform_specific : bool)
    (seen : list PoetryFile.t) (state : option PoetryFile.t * option nat) : Prop :=
  match snd state with
  | Some i =>
      exists dist, fst state = Some dist /\ first_minimal supported seen dist i
  | None =>
      none_matches supported seen /\
      fst state =
        if platform_specific then None
        else find (fun d => endswith (PoetryFile.file d) ".tar.gz") seen
  end.

(** The same object with another package list in its lock. *)
Definition with_packages (packages : list PoetryPackage.t) (self : PoetryLock)
    : PoetryLock :=
  set_data (PoetryLockConfig.mk (PoetryLockConfig.metadata (data self)) packages) self.

(** The packages the filter keeps: those whose constraint passes the test. *)
Definition kept_packages (env : PythonEnvironment) (packages : list PoetryPackage.t)
    : list PoetryPackage.t :=
  filter (fun package => valid_py_version (PoetryPackage.python_versions package) env)
    packages.

(** The packages the filter leaves out. *)
Definition excluded_packages (env : PythonEnvironment)
    (packages : list PoetryPackage.t) : list PoetryPackage.t :=
  filter (fun package =>
            negb (valid_py_version (PoetryPackage.python_versions package) env))
    packages.

(** The packages up to the first without an acceptable distribution, each with
    the distribution chosen for it, and that first package if there is one. *)
Fixpoint choose_all (supported : list Tag) (packages : list PoetryPackage.t)
    : list (PoetryPackage.t * PoetryFile.t) * option PoetryPackage.t :=
  match packages with
  | [] => ([], None)
  | package :: rest =>
      match best_dist supported (PoetryPackage.files package) with
      | None => ([], Some package)
      | Some dist =>
          let '(chosen, failed) := choose_all supported rest in
          ((package, dist) :: chosen, failed)
      end
  end.

Definition requirements_of (chosen : list (PoetryPackage.t * PoetryFile.t))
    : list PythonRequirement.t :=
  map (fun c => requirement (fst c) (snd c)) chosen.

Definition found_records (chosen : list (PoetryPackage.t * PoetryFile.t))
    : list Emitted :=
  map (fun c => LoggerDebug (found_message (snd c))) chosen.

(** The package has a distribution the selector accepts. *)
Definition resolvable (supported : list Tag) (package : PoetryPackage.t) : Prop :=
  best_dist supported (PoetryPackage.files package) <> None.

(** The requirement the selector records for a package ([None] if it has no
    acceptable distribution). *)
Definition resolved (supported : list Tag) (package : PoetryPackage.t)
    : option PythonRequirement.t :=
  option_map (requirement package) (best_dist supported (PoetryPackage.files package)).

(** A file the selector's loop looks at: a wheel or a source archive. *)
Definition selectable (dist : PoetryFile.t) : bool :=
  endswith (PoetryFile.file dist) ".whl" || endswith (PoetryFile.file dist) ".tar.gz".

(** The objects a caller can get from a fresh one by calling the methods. *)
Inductive reachable (parsed : PoetryLockConfig.t) : PoetryLock -> Prop :=
| reachable_init : reachable parsed (init parsed)
| reachable_add_target_environment_specification env self :
    reachable parsed self ->
    reachable parsed (after (add_target_environment_specification env self))
| reachable_validate_poetry_lock self :
    reachable parsed self ->
    reachable parsed (after (validate_poetry_lock self))
| reachable_get_valid_packages_from_lock self :
    reachable parsed self ->
    reachable parsed (after (get_valid_packages_from_lock self))
| reachable_get_preferred_distributions self :
    reachable parsed self ->
    reachable parsed (after (get_preferred_distributions self)).

(** What holds of every reachable object: the lock is the parsed one; a
    validated state or a filtered list implies an environment; the filtered
    list is what the filter keeps for some environment; every recorded
    requirement is that of a package of the lock with one of its own files. *)
Definition coherent (parsed : PoetryLockConfig.t) (self : PoetryLock) : Prop :=
  data self = parsed /\
  (poetry_lock_is_validated self = true -> python_target_env_spec self <> None) /\
  (forall packages,
     valid_package_list self = Some packages ->
     python_target_env_spec self <> None /\
     exists env, packages = kept_packages env (PoetryLockConfig.packages parsed)) /\
  (forall reqs r,
     package_requirements self = Some reqs -> In r reqs ->
     exists package dist,
       In package (PoetryLockConfig.packages parsed) /\
       In dist (PoetryPackage.files package) /\
       r = requirement package dist).

End Vocabulary.

(** ** A concrete environment for the examples

    Versions and tags are strings.  The stand-in evaluator admits the versions
    a specifier is a prefix of; the stand-in wheel index is the position of the
    first supported tag that ends the wheel's name (before [.whl]). *)

Fixpoint first_index (test : string -> bool) (tags : list string) (i : nat)
    : option nat :=
  match tags with
  | [] => None
  | tag :: rest => if test tag then Some i else first_index test rest (S i)
  end.

#[local] Instance sample_externals : Externals := {|
  PythonEnvironment := string * list string;
  Version := string;
  Tag := string;
  python_version := fst;
  supported_tags := snd;
  format_version := fun v => v;
  validate_python_version := fun specifier version => startswith version specifier;
  get_minimum_supported_index := fun filename tags =>
    first_index (fun tag => endswith filename ("-" ++ tag ++ ".whl")) tags 0 |}.

Definition cpython311 : PythonEnvironment :=
  ("3.11.4",
   ["cp311-cp311-manylinux_2_17_x86_64"; "cp311-abi3-manylinux_2_17_x86_64";
    "cp311-none-any"; "py3-none-any"]).

Definition package_of (name version : string) (python_versions : option string)
    (files : list PoetryFile.t) : PoetryPackage.t :=
  PoetryPackage.mk name version "main" false python_versions files None [].

Definition requests : PoetryPackage.t :=
  package_of "requests" "2.31.0" (Some "3")
    [PoetryFile.mk "requests-2.31.0-py3-none-any.whl" "sha256:58cd";
     PoetryFile.mk "requests-2.31.0.tar.gz" "sha256:942c"].

Definition numpy : PoetryPackage.t :=
  package_of "numpy" "1.26.0" None
    [PoetryFile.mk "numpy-1.26.0-cp39-cp39-manylinux_2_17_x86_64.whl" "sha256:0000";
     PoetryFile.mk "numpy-1.26.0-cp311-abi3-manylinux_2_17_x86_64.whl" "sha256:1111";
     PoetryFile.mk "numpy-1.26.0-cp311-cp311-manylinux_2_17_x86_64.whl" "sha256:2222";
     PoetryFile.mk "numpy-1.26.0.tar.gz" "sha256:3333"].

Definition legacy_pkg : PoetryPackage.t :=
  package_of "legacy-pkg" "0.1.0" None
    [PoetryFile.mk "legacy_pkg-0.1.0-cp27-cp27m-manylinux1_x86_64.whl" "sha256:4444";
     PoetryFile.mk "legacy_pkg-0.1.0.tar.gz" "sha256:5555"].

Definition six : PoetryPackage.t :=
  package_of "six" "1.16.0" None
    [PoetryFile.mk "six-1.16.0-py2-none-any.whl" "sha256:6666";
     PoetryFile.mk "six-1.16.0.tar.gz" "sha256:7777";
     PoetryFile.mk "six-1.16.0.zip" "sha256:8888"].

Definition backport : PoetryPackage.t :=
  package_of "backport" "1.0" (Some "2.7")
    [PoetryFile.mk "backport-1.0-py2-none-any.whl" "sha256:9999"].

Definition lock_of (lock_version : string) (python_versions : option string)
    (packages : list PoetryPackage.t) : PoetryLockConfig.t :=
  PoetryLockConfig.mk (PoetryLockMetadata.mk lock_version python_versions None) packages.

(** A fresh object that has been given the environment. *)
Definition loaded (parsed : PoetryLockConfig.t) : PoetryLock :=
  set_python_target_env_spec (Some cpython311) (init parsed).

(** The object after the validator has been called on it, and after the filter
    has then been called. *)
Definition validated (parsed : PoetryLockConfig.t) : PoetryLock :=
  after (validate_poetry_lock (loaded parsed)).

Definition filtered (parsed : PoetryLockConfig.t) : PoetryLock :=
  after (get_valid_packages_from_lock (validated parsed)).

(** An environment for Python 2.7, which supports the universal [py2] tag. *)
Definition cpython27 : PythonEnvironment :=
  ("2.7.18", ["cp27-cp27m-manylinux1_x86_64"; "py2-none-any"]).

(** ** A concrete file system for the examples

    A stand-in for [pathlib] and Poetry: the working directory is
    [/home/user/project/src]; [/home/user/project] holds [poetry.lock] and
    [yarn.lock], which are what the patterns [poetry.lock] and [*.lock] match
    there; no other directory has a match; Poetry knows the project in
    [/home/user/project] only. *)

(** The components of [s] between slashes, [current] being the one begun. *)
Fixpoint components (s current : string) : list string :=
  match s with
  | EmptyString => [current]
  | String c rest =>
      if Ascii.eqb c "/" then current :: components rest ""
      else components rest (current ++ String c "")
  end.

Definition posix_path (s : string) : Path.t :=
  Path.mk (startswith s "/")
    (filter (fun c => negb (String.eqb c "" || String.eqb c "."))
       (components s "")).

Definition working_directory : list string := ["home"; "user"; "project"; "src"].

Definition project_directory : Path.t := Path.mk true ["home"; "user"; "project"].

Definition locked_requests : LockedPackage.t :=
  LockedPackage.mk "requests" "2.31.0" "main" false (Some "3")
    [("requests-2.31.0-py3-none-any.whl", "sha256:58cd");
     ("requests-2.31.0.tar.gz", "sha256:942c")]
    None (Some "https://example.org/simple") None
    [LockedDependency.mk "idna" (Some ">=2.5,<4") false None None].

Definition locked_torch : LockedPackage.t :=
  LockedPackage.mk "torch" "2.1.0" "main" false None
    [("torch-2.1.0-cp311-cp311-manylinux_2_17_x86_64.whl", "sha256:aaaa")]
    (Some "legacy") (Some "https://download.pytorch.org/whl/cpu") (Some "pytorch")
    [].

Definition project_poetry : Poetry.t :=
  Poetry.mk true (Some [("lock-version", "2.0"); ("content-hash", "0f3c")])
    [locked_requests; locked_torch].

#[local] Instance sample_lock_source : LockSource := {|
  path_of_string := posix_path;
  path_resolve := fun p =>
    if Path.absolute p then p
    else Path.mk true (working_directory ++ Path.parts p)%list;
  path_glob := fun dir pattern =>
    if Path.eqb dir project_directory then
      if String.eqb pattern "poetry.lock"
      then [Path.mk true (Path.parts dir ++ ["poetry.lock"])%list]
      else if String.eqb pattern "*.lock"
      then [Path.mk true (Path.parts dir ++ ["poetry.lock"])%list;
            Path.mk true (Path.parts dir ++ ["yarn.lock"])%list]
      else []
    else [];
  create_poetry := fun dir =>
    if Path.eqb dir project_directory then inr project_poetry
    else inl (PoetryError "Poetry could not find a pyproject.toml file") |}.

(** The lock the constructor loads from [/home/user/project]. *)
Definition project_lock : PoetryLockConfig.t :=
  PoetryLockConfig.mk (PoetryLockMetadata.mk "2.0" (Some "") None)
    [convert_package locked_requests; convert_package locked_torch].

(** * Properties *)

(** ** Strings *)

Lemma is_prefix_app (p r : list ascii) : is_prefix p (p ++ r)%list = true.
Proof.
  induction p as [|a p IH]; simpl; [reflexivity|].
  now rewrite Ascii.eqb_refl, IH.
Qed.

Lemma is_prefix_inv (p s : list ascii) :
  is_prefix p s = true -> exists r, s = (p ++ r)%list.
Proof.
  revert s; induction p as [|a p IH]; intros s Hp; simpl in *.
  - now exists s.
  - destruct s as [|b s]; [discriminate|].
    apply andb_true_iff in Hp as [Hab Hps].
    apply Ascii.eqb_eq in Hab; subst b.
    destruct (IH _ Hps) as [r ->]. now exists r.
Qed.

Lemma list_ascii_of_string_app (s1 s2 : string) :
  list_ascii_of_string (s1 ++ s2)
  = (list_ascii_of_string s1 ++ list_ascii_of_string s2)%list.
Proof. induction s1 as [|c s1 IH]; simpl; [reflexivity | now rewrite IH]. Qed.

Lemma string_of_list_ascii_app (l1 l2 : list ascii) :
  string_of_list_ascii (l1 ++ l2)%list
  = string_of_list_ascii l1 ++ string_of_list_ascii l2.
Proof. induction l1 as [|c l1 IH]; simpl; [reflexivity | now rewrite IH]. Qed.

Lemma append_assoc (s1 s2 s3 : string) : (s1 ++ s2) ++ s3 = s1 ++ (s2 ++ s3).
Proof. induction s1 as [|c s1 IH]; simpl; [reflexivity | now rewrite IH]. Qed.

(** [startswith] and [endswith] are Python's: a prefix, a suffix. *)
Lemma startswith_spec (s p : string) :
  startswith s p = true <-> exists rest, s = p ++ rest.
Proof.
  unfold startswith; split.
  - intros Hp. apply is_prefix_inv in Hp as [r Hr].
    exists (string_of_list_ascii r).
    rewrite <- (string_of_list_ascii_of_string s), Hr, string_of_list_ascii_app.
    now rewrite string_of_list_ascii_of_string.
  - intros [rest ->]. rewrite list_ascii_of_string_app. apply is_prefix_app.
Qed.

Lemma endswith_spec (s p : string) :
  endswith s p = true <-> exists before, s = before ++ p.
Proof.
  unfold endswith; split.
  - intros Hp. apply is_prefix_inv in Hp as [r Hr].
    exists (string_of_list_ascii (rev r)).
    apply (f_equal (@rev ascii)) in Hr.
    rewrite rev_involutive, rev_app_distr, rev_involutive in Hr.
    rewrite <- (string_of_list_ascii_of_string s), Hr, string_of_list_ascii_app.
    now rewrite string_of_list_ascii_of_string.
  - intros [before ->].
    rewrite list_ascii_of_string_app, rev_app_distr. apply is_prefix_app.
Qed.

(** A file name cannot end in both [.tar.gz] and [.whl]. *)
Lemma source_not_binary (s : string) :
  endswith s ".tar.gz" = true -> endswith s ".whl" = false.
Proof.
  unfold endswith.
  change (rev (list_ascii_of_string ".tar.gz"))
    with (list_ascii_of_string "zg.rat.").
  change (rev (list_ascii_of_string ".whl")) with (list_ascii_of_string "lhw.").
  destruct (rev (list_ascii_of_string s)) as [|a l]; [discriminate|].
  cbn [list_ascii_of_string is_prefix].
  destruct (Ascii.eqb_spec "z" a) as [<-|]; [reflexivity | discriminate].
Qed.

Lemma contains_infix (before sub after : string) :
  contains (before ++ sub ++ after) sub.
Proof. now exists before, after. Qed.

(** ** The choice of a distribution for one package *)

Section Selection.
Context `{Externals}.
Variable supported : list Tag.

Lemma matches_functional dist i j :
  matches supported dist i -> matches supported dist j -> i = j.
Proof. intros [_ Hi] [_ Hj]. congruence. Qed.

Lemma find_snoc {A : Type} (f : A -> bool) (l : list A) (x : A) :
  find f (l ++ [x]) =
  match find f l with
  | Some y => Some y
  | None => if f x then Some x else None
  end.
Proof.
  induction l as [|a l IH]; simpl; [reflexivity|].
  destruct (f a); [reflexivity | exact IH].
Qed.

Lemma find_first {A : Type} (f : A -> bool) (l : list A) (x : A) :
  find f l = Some x ->
  exists before after,
    l = (before ++ x :: after)%list /\ f x = true /\ forall y, In y before -> f y = false.
Proof.
  induction l as [|a l IH]; simpl; [discriminate|].
  destruct (f a) eqn:Hfa.
  - intros [= ->]. exists [], l. repeat split; [assumption | intros y []].
  - intros Hl. destruct (IH Hl) as (before & after & -> & Hx & Hb).
    exists (a :: before), after. repeat split; [assumption|].
    intros y [<-|Hy]; [assumption | now apply Hb].
Qed.

Lemma find_some_exists {A : Type} (f : A -> bool) (l : list A) (x : A) :
  In x l -> f x = true -> find f l <> None.
Proof.
  intros Hin Hfx Hnone.
  pose proof (find_none f l Hnone x Hin). congruence.
Qed.

Lemma first_minimal_snoc_keep seen dist i x :
  first_minimal supported seen dist i ->
  (forall j, matches supported x j -> i <= j) ->
  first_minimal supported (seen ++ [x]) dist i.
Proof.
  intros (before & after & -> & Hm & Hb & Ha) Hx.
  exists before, (after ++ [x])%list. repeat split; try apply Hm.
  - now rewrite <- app_assoc.
  - exact Hb.
  - intros d j Hd Hj. apply in_app_or in Hd as [Hd|[<-|[]]].
    + now apply (Ha d).
    + now apply Hx.
Qed.

Lemma first_minimal_bound seen dist i d j :
  first_minimal supported seen dist i ->
  In d seen -> matches supported d j -> i <= j.
Proof.
  intros (before & after & -> & Hm & Hb & Ha) Hd Hj.
  apply in_app_or in Hd as [Hd|[<-|Hd]].
  - specialize (Hb d j Hd Hj). lia.
  - rewrite (matches_functional _ _ _ Hm Hj). lia.
  - now apply (Ha d).
Qed.

Lemma first_minimal_snoc_new seen x k :
  matches supported x k ->
  (forall d j, In d seen -> matches supported d j -> k < j) ->
  first_minimal supported (seen ++ [x]) x k.
Proof.
  intros Hx Hseen. exists seen, []. repeat split; try apply Hx.
  - exact Hseen.
  - intros d j [].
Qed.

Lemma none_matches_snoc seen x :
  none_matches supported seen ->
  (forall j, ~ matches supported x j) ->
  none_matches supported (seen ++ [x]).
Proof.
  intros Hs Hx d j Hd. apply in_app_or in Hd as [Hd|[<-|[]]]; [now apply Hs | apply Hx].
Qed.

(** One turn of the loop keeps the invariant. *)
Lemma consider_scanned platform_specific seen state x :
  scanned supported platform_specific seen state ->
  scanned supported platform_specific (seen ++ [x])
    (consider supported platform_specific state x).
Proof.
  destruct state as [best min_tag_index]. unfold scanned, consider.
  destruct (endswith (PoetryFile.file x) ".whl") eqn:Hwhl.
  - (* a wheel *)
    assert (Hnot : endswith (PoetryFile.file x) ".tar.gz" = false).
    { destruct (endswith (PoetryFile.file x) ".tar.gz") eqn:Hs; [|reflexivity].
      apply source_not_binary in Hs. congruence. }
    destruct (get_minimum_supported_index (PoetryFile.file x) supported)
      as [k|] eqn:Hk.
    + assert (Hx : matches supported x k) by (split; assumption).
      destruct min_tag_index as [i|]; simpl.
      * intros (dist & -> & Hfm).
        destruct (Nat.ltb_spec k i) as [Hlt|Hge]; simpl.
        -- exists x. split; [reflexivity|]. apply first_minimal_snoc_new; [assumption|].
           intros d j Hd Hj. pose proof (first_minimal_bound _ _ _ _ _ Hfm Hd Hj). lia.
        -- exists dist. split; [reflexivity|].
           apply first_minimal_snoc_keep; [assumption|].
           intros j Hj. rewrite <- (matches_functional _ _ _ Hx Hj). exact Hge.
      * intros [Hnone _]. exists x. split; [reflexivity|].
        apply first_minimal_snoc_new; [assumption|].
        intros d j Hd Hj. now destruct (Hnone d j Hd).
    + assert (Hx : forall j, ~ matches supported x j).
      { intros j [_ Hj]. congruence. }
      destruct min_tag_index as [i|]; simpl.
      * intros (dist & -> & Hfm). exists dist. split; [reflexivity|].
        apply first_minimal_snoc_keep; [assumption|].
        intros j Hj. now destruct (Hx j).
      * intros [Hnone ->]. split; [now apply none_matches_snoc|].
        destruct platform_specific; [reflexivity|].
        rewrite find_snoc, Hnot. now destruct (find _ seen).
  - (* not a wheel *)
    assert (Hx : forall j, ~ matches supported x j).
    { intros j [Hb _]. unfold is_binary in Hb. congruence. }
    destruct min_tag_index as [i|]; simpl.
    + intros (dist & -> & Hfm). rewrite andb_false_r. simpl.
      exists dist. split; [reflexivity|].
      apply first_minimal_snoc_keep; [assumption|].
      intros j Hj. now destruct (Hx j).
    + intros [Hnone ->].
      destruct platform_specific; simpl.
      * split; [now apply none_matches_snoc | reflexivity].
      * rewrite find_snoc.
        destruct (find _ seen) as [y|]; simpl.
        -- rewrite andb_false_r. simpl.
           split; [now apply none_matches_snoc | reflexivity].
        -- rewrite andb_true_r.
           destruct (endswith (PoetryFile.file x) ".tar.gz"); simpl;
             (split; [now apply none_matches_snoc | reflexivity]).
Qed.

Lemma fold_consider_scanned platform_specific distributions seen state :
  scanned supported platform_specific seen state ->
  scanned supported platform_specific (seen ++ distributions)
    (fold_left (consider supported platform_specific) distributions state).
Proof.
  revert seen state.
  induction distributions as [|x rest IH]; intros seen state Hs; simpl.
  - now rewrite app_nil_r.
  - replace (seen ++ x :: rest)%list with ((seen ++ [x]) ++ rest)%list
      by now rewrite <- app_assoc.
    apply IH, consider_scanned, Hs.
Qed.

(** The invariant holds of the whole list when the loop ends. *)
Lemma best_dist_scanned distributions :
  scanned supported (is_platform_specific distributions) distributions
    (fold_left (consider supported (is_platform_specific distributions))
       distributions (None, None)).
Proof.
  apply (fold_consider_scanned _ distributions []).
  split; [intros d j [] | now destruct (is_platform_specific distributions)].
Qed.

End Selection.

Section PerPackage.
Context `{Externals}.
Variable supported : list Tag.

Lemma existsb_any_nonempty {A : Type} (l : list A) :
  existsb (fun _ => true) l = true <-> l <> [].
Proof. destruct l; simpl; split; congruence. Qed.

Lemma not_platform_specific distributions :
  (forall dist, In dist distributions -> is_binary dist -> is_universal dist) ->
  is_platform_specific distributions = false.
Proof.
  intros Hall. unfold is_platform_specific.
  destruct (filter _ (filter _ distributions)) as [|d l] eqn:Hf; [reflexivity|].
  assert (Hd : In d (d :: l)) by now left.
  rewrite <- Hf in Hd. apply filter_In in Hd as [Hd Hnot].
  apply filter_In in Hd as [Hd Hbin].
  rewrite (Hall d Hd Hbin) in Hnot. discriminate.
Qed.

Lemma platform_specific distributions dist :
  In dist distributions -> is_binary dist -> ~ is_universal dist ->
  is_platform_specific distributions = true.
Proof.
  intros Hin Hbin Hnot. unfold is_platform_specific.
  apply existsb_any_nonempty. intros Hnil.
  assert (Hd : In dist
    (filter (fun d => negb (endswith (PoetryFile.file d) "none-any.whl"))
       (filter (fun d => endswith (PoetryFile.file d) ".whl") distributions))).
  { apply filter_In. split; [apply filter_In; now split|].
    unfold is_universal in Hnot.
    now destruct (endswith (PoetryFile.file dist) "none-any.whl"). }
  rewrite Hnil in Hd. destruct Hd.
Qed.

(** The loop body on a package whose best distribution is [dist]: the choice
    is logged and its requirement appended. *)
Lemma select_distribution_some package dist self reqs :
  best_dist supported (PoetryPackage.files package) = Some dist ->
  package_requirements self = Some reqs ->
  select_distribution supported package self =
  mkOutcome (inr tt)
    (set_package_requirements (Some (reqs ++ [requirement package dist])%list) self)
    [LoggerDebug (found_message dist)].
Proof.
  intros Hbest Hreqs. unfold select_distribution. rewrite Hbest.
  unfold bind, emit, append_requirement, get_self, assign. simpl.
  now rewrite Hreqs.
Qed.

(** The loop body on a package without an acceptable distribution raises and
    leaves the object as it is. *)
Lemma select_distribution_none package self :
  best_dist supported (PoetryPackage.files package) = None ->
  select_distribution supported package self =
  mkOutcome (inl (IncompatibleDistributionError (incompatible_message package)))
    self [].
Proof. intros Hbest. unfold select_distribution. now rewrite Hbest. Qed.

(** The two ways the loop over the distributions of a package can end. *)
Lemma best_dist_cases (distributions : list PoetryFile.t) :
  (exists dist i,
     best_dist supported distributions = Some dist /\
     first_minimal supported distributions dist i) \/
  (none_matches supported distributions /\
   best_dist supported distributions =
     if is_platform_specific distributions then None
     else find (fun d => endswith (PoetryFile.file d) ".tar.gz") distributions).
Proof.
  pose proof (best_dist_scanned supported distributions) as Hs.
  unfold best_dist, scanned in *.
  destruct (fold_left _ _ _) as [best [i|]]; simpl in *.
  - left. destruct Hs as (dist & -> & Hfm). now exists dist, i.
  - right. exact Hs.
Qed.

(** With a matching wheel the loop ends with the first matching wheel of least
    index. *)
Lemma best_dist_minimal (package : PoetryPackage.t) :
  (exists dist i,
     In dist (PoetryPackage.files package) /\ matches supported dist i) ->
  exists dist i,
    first_minimal supported (PoetryPackage.files package) dist i /\
    best_dist supported (PoetryPackage.files package) = Some dist.
Proof.
  intros (d & j & Hd & Hj).
  destruct (best_dist_cases (PoetryPackage.files package))
    as [(dist & i & Hbest & Hfm)|[Hnone _]].
  - exists dist, i. split; assumption.
  - now destruct (Hnone d j Hd).
Qed.

(** Without a matching wheel and with universal wheels only, the loop ends
    with the first [.tar.gz] file if there is one. *)
Lemma best_dist_source (package : PoetryPackage.t) :
  none_matches supported (PoetryPackage.files package) ->
  (forall dist, In dist (PoetryPackage.files package) ->
     is_binary dist -> is_universal dist) ->
  (exists dist, In dist (PoetryPackage.files package) /\ is_source dist) ->
  exists dist,
    first_source (PoetryPackage.files package) dist /\
    best_dist supported (PoetryPackage.files package) = Some dist.
Proof.
  intros Hnone Huniv (d & Hd & Hsrc).
  destruct (best_dist_cases (PoetryPackage.files package))
    as [(dist & i & _ & (b & a & E & Hm & _))|[_ Hbest]].
  - destruct (Hnone dist i); [|assumption].
    rewrite E. apply in_or_app. right. now left.
  - rewrite (not_platform_specific _ Huniv) in Hbest.
    destruct (find _ (PoetryPackage.files package)) as [dist|] eqn:Hfind.
    + exists dist. split; [|assumption].
      destruct (find_first _ _ _ Hfind) as (before & after & E & Hs & Hb).
      exists before, after. repeat split; [assumption | assumption |].
      intros y Hy Hys. unfold is_source in Hys.
      rewrite (Hb y Hy) in Hys. discriminate.
    + exfalso.
      exact (find_some_exists
               (fun d => endswith (PoetryFile.file d) ".tar.gz") _ _ Hd Hsrc Hfind).
Qed.

(** Without a matching wheel, a platform-specific wheel or the want of a
    [.tar.gz] distribution leaves the package without a choice. *)
Lemma best_dist_none (package : PoetryPackage.t) :
  none_matches supported (PoetryPackage.files package) ->
  (exists dist, In dist (PoetryPackage.files package) /\
     is_binary dist /\ ~ is_universal dist) \/
  (forall dist, In dist (PoetryPackage.files package) -> ~ is_source dist) ->
  best_dist supported (PoetryPackage.files package) = None.
Proof.
  intros Hnone Hwhy.
  destruct (best_dist_cases (PoetryPackage.files package))
    as [(dist & i & _ & (b & a & E & Hm & _))|[_ Hbest]].
  - destruct (Hnone dist i); [|assumption].
    rewrite E. apply in_or_app. right. now left.
  - rewrite Hbest.
    destruct Hwhy as [(dist & Hd & Hbin & Hnot)|Hnosrc].
    + now rewrite (platform_specific _ _ Hd Hbin Hnot).
    + destruct (is_platform_specific _); [reflexivity|].
      destruct (find _ (PoetryPackage.files package)) as [dist|] eqn:Hfind;
        [|reflexivity].
      apply find_some in Hfind as [Hd Hs]. now destruct (Hnosrc dist Hd).
Qed.

Lemma incompatible_message_names (package : PoetryPackage.t) :
  contains (incompatible_message package) (PoetryPackage.name package) /\
  contains (incompatible_message package) (PoetryPackage.version package).
Proof.
  unfold incompatible_message. split.
  - apply contains_infix.
  - rewrite <- !append_assoc.
    rewrite (append_assoc _ (PoetryPackage.version package)).
    apply contains_infix.
Qed.

End PerPackage.

(** ** The loops of the filter and of the selector *)

(** Runs the sequencing of a method: binds, reads and assignments. *)
Ltac run_method :=
  cbv beta zeta delta [bind get_self assign ret raise emit];
  cbn [value after emitted app].

Section Loops.
Context `{Externals}.

(** The validator, case by case. *)
Lemma validate_poetry_lock_unfold (self : PoetryLock) :
  validate_poetry_lock self =
  match python_target_env_spec self with
  | None =>
      mkOutcome (inl (MissingPythonEnvironmentError "No Python environment specified"))
        self []
  | Some env =>
      let metadata := PoetryLockConfig.metadata (data self) in
      if startswith (PoetryLockMetadata.lock_version metadata) "2." then
        if valid_py_version (PoetryLockMetadata.python_versions metadata) env
        then mkOutcome (inr tt) (set_poetry_lock_is_validated true self) []
        else mkOutcome
               (inl (InvalidLockFileError
                       "Poetry lock file not compatible with target Python version"))
               self []
      else mkOutcome (inl InvalidLockVersionError) self []
  end.
Proof.
  unfold validate_poetry_lock, bind, get_self. simpl.
  destruct (python_target_env_spec self) as [env|]; [|reflexivity].
  destruct (startswith _ "2."); [|reflexivity].
  now destruct (valid_py_version _ env).
Qed.

Lemma keep_if_valid_kept env package self kept :
  valid_py_version (PoetryPackage.python_versions package) env = true ->
  keep_if_valid env package (set_valid_package_list (Some kept) self) =
  mkOutcome (inr tt) (set_valid_package_list (Some (kept ++ [package])%list) self) [].
Proof. intros Hv. unfold keep_if_valid. now rewrite Hv. Qed.

Lemma keep_if_valid_excluded env package self :
  valid_py_version (PoetryPackage.python_versions package) env = false ->
  keep_if_valid env package self =
  mkOutcome (inr tt) self [LoggerDebug (not_compatible_message env package)].
Proof. intros Hv. unfold keep_if_valid. now rewrite Hv. Qed.

(** The filter's loop appends the kept packages in order and logs one debug
    record for each package it leaves out. *)
Lemma for_each_keep_if_valid env packages self kept :
  for_each packages (keep_if_valid env) (set_valid_package_list (Some kept) self) =
  mkOutcome (inr tt)
    (set_valid_package_list (Some (kept ++ kept_packages env packages)%list) self)
    (map (fun package => LoggerDebug (not_compatible_message env package))
       (excluded_packages env packages)).
Proof.
  revert kept. induction packages as [|package rest IH]; intros kept.
  - simpl. unfold ret. now rewrite app_nil_r.
  - cbn [for_each]. unfold bind at 1.
    unfold kept_packages, excluded_packages. cbn [filter].
    destruct (valid_py_version (PoetryPackage.python_versions package) env) eqn:Hv.
    + rewrite (keep_if_valid_kept _ _ _ _ Hv). cbn [value after emitted negb].
      rewrite IH. cbn [value after emitted app]. unfold kept_packages.
      now rewrite <- app_assoc.
    + rewrite (keep_if_valid_excluded _ _ _ Hv). cbn [value after emitted negb].
      rewrite IH. reflexivity.
Qed.

(** The filter, case by case. *)
Lemma get_valid_packages_from_lock_unfold (self : PoetryLock) :
  get_valid_packages_from_lock self =
  match python_target_env_spec self with
  | None =>
      mkOutcome (inl (MissingPythonEnvironmentError "No Python environment specified"))
        self []
  | Some env =>
      let kept := kept_packages env (PoetryLockConfig.packages (data self)) in
      mkOutcome (inr (Some kept)) (set_valid_package_list (Some kept) self)
        (map (fun package => LoggerDebug (not_compatible_message env package))
           (excluded_packages env (PoetryLockConfig.packages (data self))))
  end.
Proof.
  unfold get_valid_packages_from_lock. run_method.
  destruct (python_target_env_spec self) as [env|]; [|reflexivity].
  run_method. rewrite (for_each_keep_if_valid env _ self []). run_method.
  now rewrite app_nil_r.
Qed.

(** The selector's loop records the requirements of the packages up to the
    first that has no acceptable distribution, and raises for that one. *)
Lemma for_each_select_distribution supported packages self reqs :
  for_each packages (select_distribution supported)
    (set_package_requirements (Some reqs) self) =
  mkOutcome
    (match snd (choose_all supported packages) with
     | Some package =>
         inl (IncompatibleDistributionError (incompatible_message package))
     | None => inr tt
     end)
    (set_package_requirements
       (Some (reqs ++ requirements_of (fst (choose_all supported packages)))%list) self)
    (found_records (fst (choose_all supported packages))).
Proof.
  revert reqs. induction packages as [|package rest IH]; intros reqs.
  - simpl. unfold ret. now rewrite app_nil_r.
  - cbn [for_each choose_all]. run_method.
    destruct (best_dist supported (PoetryPackage.files package)) as [dist|] eqn:Hbest.
    + rewrite (select_distribution_some supported package dist
                 (set_package_requirements (Some reqs) self) reqs Hbest eq_refl).
      cbn [value after emitted app].
      change (set_package_requirements (Some (reqs ++ [requirement package dist])%list)
                (set_package_requirements (Some reqs) self))
        with (set_package_requirements
                (Some (reqs ++ [requirement package dist])%list) self).
      rewrite IH. destruct (choose_all supported rest) as [chosen failed].
      cbn [value after emitted fst snd requirements_of found_records map app].
      now rewrite <- app_assoc.
    + rewrite (select_distribution_none supported package _ Hbest).
      cbn [value after emitted fst snd requirements_of found_records map].
      now rewrite app_nil_r.
Qed.

(** The selector, case by case. *)
Lemma get_preferred_distributions_unfold (self : PoetryLock) :
  get_preferred_distributions self =
  match valid_package_list self with
  | None | Some [] =>
      mkOutcome (inl (MissingLockMetadataError not_validated_message)) self []
  | Some packages =>
      match python_target_env_spec self with
      | None =>
          mkOutcome
            (inl (AttributeError "'NoneType' object has no attribute 'supported_tags'"))
            (set_package_requirements (Some []) self) []
      | Some env =>
          let chosen := fst (choose_all (supported_tags env) packages) in
          mkOutcome
            (match snd (choose_all (supported_tags env) packages) with
             | Some package =>
                 inl (IncompatibleDistributionError (incompatible_message package))
             | None => inr (Some (requirements_of chosen))
             end)
            (set_package_requirements (Some (requirements_of chosen)) self)
            (found_records chosen)
      end
  end.
Proof.
  unfold get_preferred_distributions. run_method.
  destruct (valid_package_list self) as [[|package rest]|]; try reflexivity.
  run_method.
  change (python_target_env_spec (set_package_requirements (Some []) self))
    with (python_target_env_spec self).
  destruct (python_target_env_spec self) as [env|]; [|reflexivity].
  run_method. rewrite for_each_select_distribution.
  cbn [value after emitted app].
  destruct (snd (choose_all (supported_tags env) (package :: rest)));
    cbn [value after emitted]; [reflexivity|].
  now rewrite app_nil_r.
Qed.

End Loops.

(** ** The validator and the filter *)

Section ValidatorAndFilter.
Context `{Externals}.

Lemma valid_py_version_true (python_versions : option string) env :
  valid_py_version python_versions env = true <->
  absent python_versions \/ admits python_versions env.
Proof.
  unfold valid_py_version, absent, admits, truthy.
  destruct python_versions as [specifier|].
  - destruct (String.eqb_spec specifier "") as [->|Hne]; simpl.
    + split; [now left; right | reflexivity].
    + split.
      * intros Hv. right. now exists specifier.
      * intros [[|[= ->]]|(s & [= <-] & _ & Hv)];
          [discriminate | now destruct Hne | assumption].
  - split; [now left; left | reflexivity].
Qed.

Lemma valid_py_version_false (python_versions : option string) env :
  valid_py_version python_versions env = false <-> rejects python_versions env.
Proof.
  unfold valid_py_version, rejects, truthy.
  destruct python_versions as [specifier|].
  - destruct (String.eqb_spec specifier "") as [->|Hne]; simpl.
    + split; [discriminate | intros (s & [= <-] & Hne & _); now destruct Hne].
    + split.
      * intros Hv. now exists specifier.
      * now intros (s & [= <-] & _ & Hv).
  - split; [discriminate | intros (s & [=] & _)].
Qed.

Lemma major_component_empty (version : string) :
  major_component version = "" <->
  version = "" \/ exists rest, version = String "." rest.
Proof.
  destruct version as [|c rest]; cbn [major_component].
  - split; [now left | reflexivity].
  - destruct (Ascii.eqb_spec c ".") as [->|Hc].
    + split; [right; now exists rest | reflexivity].
    + split; [discriminate|].
      intros [[=]|(r & [= -> _])]. now destruct Hc.
Qed.

Lemma major_component_2 (version : string) :
  major_component version = "2" <->
  version = "2" \/ exists rest, version = "2." ++ rest.
Proof.
  destruct version as [|c rest]; cbn [major_component].
  - split; [discriminate | intros [[=]|(r & [=])]].
  - destruct (Ascii.eqb_spec c ".") as [->|Hc].
    + split; [discriminate | intros [[=]|(r & [=])]].
    + split.
      * intros [= -> Hm]. apply major_component_empty in Hm as [->|(r & ->)];
          [now left | right; now exists r].
      * intros [[= -> ->]|(r & [= -> ->])]; reflexivity.
Qed.

(** A version string starts with [2.] when its major component is [2] and a
    dot follows, that is, unless it is the bare string [2]. *)
Lemma startswith_2_major (version : string) :
  startswith version "2." = false <->
  major_component version <> "2" \/ version = "2".
Proof.
  split.
  - intros Hs. destruct (string_dec version "2") as [->|Hne]; [now right|].
    left. intros Hm. apply major_component_2 in Hm as [->|Hr]; [now destruct Hne|].
    apply startswith_spec in Hr. congruence.
  - intros [Hm| ->]; [|reflexivity].
    destruct (startswith version "2.") eqn:Hs; [|reflexivity].
    apply startswith_spec in Hs. destruct Hm. apply major_component_2. now right.
Qed.

(** C8. With an environment supplied and a lock of a supported schema version,
    the validator raises [InvalidLockFileError] exactly when the lock's
    interpreter constraint is present and rejects the environment's version;
    when the constraint is absent, or admits the version, validation succeeds
    and records the validated state. *)
Theorem validator_incompatible_lock (self : PoetryLock) (env : PythonEnvironment) :
  python_target_env_spec self = Some env ->
  startswith
    (PoetryLockMetadata.lock_version (PoetryLockConfig.metadata (data self))) "2."
  = true ->
  let python_versions :=
    PoetryLockMetadata.python_versions (PoetryLockConfig.metadata (data self)) in
  ((exists msg, value (validate_poetry_lock self) = inl (InvalidLockFileError msg))
   <-> rejects python_versions env) /\
  (absent python_versions \/ admits python_versions env ->
   value (validate_poetry_lock self) = inr tt /\
   poetry_lock_is_validated (after (validate_poetry_lock self)) = true).
Proof.
  intros Henv Hver python_versions.
  rewrite validate_poetry_lock_unfold, Henv. cbv zeta. rewrite Hver.
  fold python_versions.
  destruct (valid_py_version python_versions env) eqn:Hv; cbn [value after].
  - split.
    + split; [intros [msg [=]]|].
      intros Hr. apply valid_py_version_false in Hr. congruence.
    + intros _. split; reflexivity.
  - split.
    + split; [|intros _; eexists; reflexivity].
      intros _. now apply valid_py_version_false.
    + intros Ha. apply valid_py_version_true in Ha. congruence.
Qed.

(** C7. With an environment supplied, the filter returns, without raising, the
    packages of the lock whose own interpreter constraint is absent or admits
    the environment's version, in the order of the lock; it records that list
    on the object; each package it leaves out has a constraint that rejects the
    version and is the subject of one record, logged at debug level; nothing
    else is emitted; and it returns the empty list when every package is left
    out. *)
Theorem filter_keeps_admitted_packages (self : PoetryLock) (env : PythonEnvironment) :
  python_target_env_spec self = Some env ->
  let packages := PoetryLockConfig.packages (data self) in
  let kept :=
    filter (fun package =>
              valid_py_version (PoetryPackage.python_versions package) env)
      packages in
  let excluded :=
    filter (fun package =>
              negb (valid_py_version (PoetryPackage.python_versions package) env))
      packages in
  value (get_valid_packages_from_lock self) = inr (Some kept) /\
  valid_package_list (after (get_valid_packages_from_lock self)) = Some kept /\
  (forall package,
     In package kept <->
     In package packages /\
     (absent (PoetryPackage.python_versions package) \/
      admits (PoetryPackage.python_versions package) env)) /\
  (forall package,
     In package excluded <->
     In package packages /\ rejects (PoetryPackage.python_versions package) env) /\
  emitted (get_valid_packages_from_lock self)
  = map (fun package => LoggerDebug (not_compatible_message env package)) excluded /\
  ((forall package, In package packages ->
      rejects (PoetryPackage.python_versions package) env) ->
   value (get_valid_packages_from_lock self) = inr (Some [])).
Proof.
  intros Henv packages kept excluded.
  rewrite get_valid_packages_from_lock_unfold, Henv. cbv zeta.
  cbn [value after emitted].
  fold packages. unfold kept_packages, excluded_packages. fold kept excluded.
  split; [reflexivity|]. split; [reflexivity|]. split; [|split; [|split]].
  - intros package. unfold kept. rewrite filter_In, valid_py_version_true.
    reflexivity.
  - intros package. unfold excluded. rewrite filter_In, <- valid_py_version_false.
    destruct (valid_py_version _ env); simpl; intuition congruence.
  - reflexivity.
  - intros Hall. do 2 f_equal. unfold kept. clearbody packages.
    induction packages as [|package l IH]; [reflexivity|]. simpl.
    assert (Hp := Hall package (or_introl eq_refl)).
    apply valid_py_version_false in Hp. rewrite Hp.
    apply IH. intros q Hq. apply Hall. now right.
Qed.

End ValidatorAndFilter.

(** ** The selector over the list of valid packages *)

Section Selector.
Context `{Externals}.

Lemma choose_all_app supported (before rest : list PoetryPackage.t) :
  snd (choose_all supported before) = None ->
  choose_all supported (before ++ rest) =
  ((fst (choose_all supported before) ++ fst (choose_all supported rest))%list,
   snd (choose_all supported rest)).
Proof.
  induction before as [|package before IH]; cbn [choose_all app fst snd].
  - intros _. now destruct (choose_all supported rest).
  - destruct (best_dist supported (PoetryPackage.files package)); [|discriminate].
    destruct (choose_all supported before) as [chosen failed]. cbn [fst snd] in *.
    intros Hf. rewrite (IH Hf). reflexivity.
Qed.

Lemma choose_all_resolvable supported (before : list PoetryPackage.t) :
  Forall (resolvable supported) before ->
  snd (choose_all supported before) = None /\
  map fst (fst (choose_all supported before)) = before.
Proof.
  induction 1 as [|package before Hp _ [IHs IHm]]; cbn [choose_all];
    [now split|].
  unfold resolvable in Hp.
  destruct (best_dist supported (PoetryPackage.files package)); [|now destruct Hp].
  destruct (choose_all supported before) as [chosen failed]. cbn [fst snd map] in *.
  split; [assumption | now rewrite IHm].
Qed.

Lemma choose_all_first_failure supported before package rest :
  Forall (resolvable supported) before ->
  best_dist supported (PoetryPackage.files package) = None ->
  choose_all supported (before ++ package :: rest) =
  (fst (choose_all supported before), Some package).
Proof.
  intros Hb Hp. destruct (choose_all_resolvable _ _ Hb) as [Hs _].
  rewrite (choose_all_app _ _ _ Hs). cbn [choose_all]. rewrite Hp.
  cbn [fst snd]. now rewrite app_nil_r.
Qed.

(** The call of the selector in which the loop comes to a package without an
    acceptable distribution: it raises for that package, having recorded the
    requirements of the packages before it and of no other. *)
Lemma get_preferred_distributions_first_failure self env before package rest :
  valid_package_list self = Some (before ++ package :: rest)%list ->
  python_target_env_spec self = Some env ->
  Forall (resolvable (supported_tags env)) before ->
  best_dist (supported_tags env) (PoetryPackage.files package) = None ->
  get_preferred_distributions self =
  mkOutcome (inl (IncompatibleDistributionError (incompatible_message package)))
    (set_package_requirements
       (Some (requirements_of (fst (choose_all (supported_tags env) before)))) self)
    (found_records (fst (choose_all (supported_tags env) before))).
Proof.
  intros Hvalid Henv Hb Hp.
  rewrite get_preferred_distributions_unfold, Hvalid, Henv. cbv zeta.
  rewrite (choose_all_first_failure _ _ _ rest Hb Hp). cbn [fst snd].
  destruct before; reflexivity.
Qed.

Lemma choose_all_reaches supported before package rest dist :
  Forall (resolvable supported) before ->
  best_dist supported (PoetryPackage.files package) = Some dist ->
  choose_all supported (before ++ package :: rest) =
  ((fst (choose_all supported before)
    ++ (package, dist) :: fst (choose_all supported rest))%list,
   snd (choose_all supported rest)).
Proof.
  intros Hb Hp. destruct (choose_all_resolvable _ _ Hb) as [Hs _].
  rewrite (choose_all_app _ _ _ Hs). cbn [choose_all]. rewrite Hp.
  now destruct (choose_all supported rest).
Qed.

(** The selector on a list of valid packages that is not empty. *)
Lemma get_preferred_distributions_nonempty self env packages :
  valid_package_list self = Some packages ->
  packages <> [] ->
  python_target_env_spec self = Some env ->
  get_preferred_distributions self =
  mkOutcome
    (match snd (choose_all (supported_tags env) packages) with
     | Some package =>
         inl (IncompatibleDistributionError (incompatible_message package))
     | None =>
         inr (Some (requirements_of (fst (choose_all (supported_tags env) packages))))
     end)
    (set_package_requirements
       (Some (requirements_of (fst (choose_all (supported_tags env) packages)))) self)
    (found_records (fst (choose_all (supported_tags env) packages))).
Proof.
  intros Hvalid Hne Henv.
  rewrite get_preferred_distributions_unfold, Hvalid, Henv.
  destruct packages; [now destruct Hne | reflexivity].
Qed.

(** The call of the selector in which the loop comes to a package whose best
    distribution is [dist]: the requirement of [dist] is recorded at the
    package's place and the choice is logged, whatever comes after; and when the
    packages after it have an acceptable distribution too, the call returns the
    list with that requirement at the package's place. *)
Lemma get_preferred_distributions_reaches self env before package rest dist :
  valid_package_list self = Some (before ++ package :: rest)%list ->
  python_target_env_spec self = Some env ->
  Forall (resolvable (supported_tags env)) before ->
  best_dist (supported_tags env) (PoetryPackage.files package) = Some dist ->
  (exists recorded,
     package_requirements (after (get_preferred_distributions self))
     = Some recorded /\
     nth_error recorded (length before) = Some (requirement package dist)) /\
  In (LoggerDebug (found_message dist)) (emitted (get_preferred_distributions self))
  /\
  (Forall (resolvable (supported_tags env)) rest ->
   exists reqs,
     value (get_preferred_distributions self) = inr (Some reqs) /\
     nth_error reqs (length before) = Some (requirement package dist)).
Proof.
  intros Hvalid Henv Hb Hp.
  assert (Hne : (before ++ package :: rest)%list <> [])
    by (intros E; symmetry in E; now apply app_cons_not_nil in E).
  rewrite (get_preferred_distributions_nonempty _ _ _ Hvalid Hne Henv).
  rewrite (choose_all_reaches _ _ _ rest _ Hb Hp).
  cbn [value after emitted fst snd set_package_requirements package_requirements].
  destruct (choose_all_resolvable _ _ Hb) as [_ Hmap].
  assert (Hlen : length (requirements_of (fst (choose_all (supported_tags env) before)))
                 = length before).
  { unfold requirements_of. rewrite length_map.
    rewrite <- Hmap at 2. now rewrite length_map. }
  assert (Hnth : nth_error
                   (requirements_of
                      (fst (choose_all (supported_tags env) before)
                       ++ (package, dist) :: fst (choose_all (supported_tags env) rest)))
                   (length before)
                 = Some (requirement package dist)).
  { unfold requirements_of in *. rewrite map_app. cbn [map fst snd].
    rewrite nth_error_app2 by lia. rewrite Hlen, Nat.sub_diag. reflexivity. }
  split; [eexists; split; [reflexivity | exact Hnth]|]. split.
  - unfold found_records. rewrite map_app. apply in_or_app. right. now left.
  - intros Hrest. destruct (choose_all_resolvable _ _ Hrest) as [Hs _].
    rewrite Hs. eexists; split; [reflexivity | exact Hnth].
Qed.

(** C1. When some wheel of a package matches the table of supported tags, the
    selector's choice for the package is the matching wheel of least index, the
    first of them in file-list order when several share that index (wheels that
    match no entry are passed over).  The loop body records the requirement of
    that wheel; the call of the selector whose loop comes to the package
    records it at the package's place in [package_requirements] and logs the
    choice, and returns it at that place when the packages after it have an
    acceptable distribution too. *)
Theorem selector_prefers_minimal_index (env : PythonEnvironment)
    (package : PoetryPackage.t) :
  (exists dist i,
     In dist (PoetryPackage.files package) /\
     matches (supported_tags env) dist i) ->
  exists dist i,
    first_minimal (supported_tags env) (PoetryPackage.files package) dist i /\
    best_dist (supported_tags env) (PoetryPackage.files package) = Some dist /\
    (forall self reqs,
       package_requirements self = Some reqs ->
       value (select_distribution (supported_tags env) package self) = inr tt /\
       package_requirements
         (after (select_distribution (supported_tags env) package self))
       = Some (reqs ++ [requirement package dist])%list) /\
    (forall self before rest,
       valid_package_list self = Some (before ++ package :: rest)%list ->
       python_target_env_spec self = Some env ->
       Forall (resolvable (supported_tags env)) before ->
       (exists recorded,
          package_requirements (after (get_preferred_distributions self))
          = Some recorded /\
          nth_error recorded (length before) = Some (requirement package dist)) /\
       In (LoggerDebug (found_message dist))
         (emitted (get_preferred_distributions self)) /\
       (Forall (resolvable (supported_tags env)) rest ->
        exists reqs,
          value (get_preferred_distributions self) = inr (Some reqs) /\
          nth_error reqs (length before) = Some (requirement package dist))).
Proof.
  intros Hmatch.
  destruct (best_dist_minimal _ _ Hmatch) as (dist & i & Hfm & Hbest).
  exists dist, i. split; [assumption|]. split; [assumption|]. split.
  - intros self reqs Hreqs.
    now rewrite (select_distribution_some _ _ _ _ _ Hbest Hreqs).
  - intros self before rest Hvalid Henv Hb.
    exact (get_preferred_distributions_reaches _ _ _ _ _ _ Hvalid Henv Hb Hbest).
Qed.

(** C2. When no wheel of a package matches the table, every wheel it has is a
    universal one ([none-any.whl]) and it has a [.tar.gz] distribution, the
    selector succeeds on the package and chooses the first [.tar.gz]
    distribution in file-list order.  The loop body records the requirement of
    that file without raising; the call of the selector whose loop comes to
    the package records it at the package's place in [package_requirements]
    and logs the choice, and succeeds, returning it at that place, when the
    packages after it have an acceptable distribution too. *)
Theorem selector_falls_back_to_source (env : PythonEnvironment)
    (package : PoetryPackage.t) :
  none_matches (supported_tags env) (PoetryPackage.files package) ->
  (forall dist, In dist (PoetryPackage.files package) ->
     is_binary dist -> is_universal dist) ->
  (exists dist, In dist (PoetryPackage.files package) /\ is_source dist) ->
  exists dist,
    first_source (PoetryPackage.files package) dist /\
    best_dist (supported_tags env) (PoetryPackage.files package) = Some dist /\
    (forall self reqs,
       package_requirements self = Some reqs ->
       value (select_distribution (supported_tags env) package self) = inr tt /\
       package_requirements
         (after (select_distribution (supported_tags env) package self))
       = Some (reqs ++ [requirement package dist])%list) /\
    (forall self before rest,
       valid_package_list self = Some (before ++ package :: rest)%list ->
       python_target_env_spec self = Some env ->
       Forall (resolvable (supported_tags env)) before ->
       (exists recorded,
          package_requirements (after (get_preferred_distributions self))
          = Some recorded /\
          nth_error recorded (length before) = Some (requirement package dist)) /\
       In (LoggerDebug (found_message dist))
         (emitted (get_preferred_distributions self)) /\
       (Forall (resolvable (supported_tags env)) rest ->
        exists reqs,
          value (get_preferred_distributions self) = inr (Some reqs) /\
          nth_error reqs (length before) = Some (requirement package dist))).
Proof.
  intros Hnone Huniv Hsrc.
  destruct (best_dist_source _ _ Hnone Huniv Hsrc) as (dist & Hfs & Hbest).
  exists dist. split; [assumption|]. split; [assumption|]. split.
  - intros self reqs Hreqs.
    now rewrite (select_distribution_some _ _ _ _ _ Hbest Hreqs).
  - intros self before rest Hvalid Henv Hb.
    exact (get_preferred_distributions_reaches _ _ _ _ _ _ Hvalid Henv Hb Hbest).
Qed.

(** C3. When no wheel of a package matches the table and either one of its
    wheels is platform-specific (not [none-any.whl]) or it has no [.tar.gz]
    distribution, the selector fails on the package with
    [IncompatibleDistributionError], the message holding the package's name and
    version: the loop body raises it whatever the object, and so does the call
    of the selector whose loop comes to the package. *)
Theorem selector_rejects_incompatible (env : PythonEnvironment)
    (package : PoetryPackage.t) :
  none_matches (supported_tags env) (PoetryPackage.files package) ->
  (exists dist, In dist (PoetryPackage.files package) /\
     is_binary dist /\ ~ is_universal dist) \/
  (forall dist, In dist (PoetryPackage.files package) -> ~ is_source dist) ->
  exists msg,
    contains msg (PoetryPackage.name package) /\
    contains msg (PoetryPackage.version package) /\
    (forall self,
       value (select_distribution (supported_tags env) package self)
       = inl (IncompatibleDistributionError msg)) /\
    (forall self before rest,
       valid_package_list self = Some (before ++ package :: rest)%list ->
       python_target_env_spec self = Some env ->
       Forall (resolvable (supported_tags env)) before ->
       value (get_preferred_distributions self)
       = inl (IncompatibleDistributionError msg)).
Proof.
  intros Hnone Hwhy.
  pose proof (best_dist_none _ _ Hnone Hwhy) as Hbest.
  exists (incompatible_message package).
  destruct (incompatible_message_names package) as [Hname Hversion].
  repeat split; try assumption.
  - intros self. now rewrite (select_distribution_none _ _ _ Hbest).
  - intros self before rest Hvalid Henv Hb.
    now rewrite (get_preferred_distributions_first_failure
                   _ _ _ _ _ Hvalid Henv Hb Hbest).
Qed.

(** C5, as the code has it. The selector goes through the packages in order and
    stops at the first that has no acceptable distribution: the call raises
    [IncompatibleDistributionError] for that package, the requirements recorded
    on the object and the records logged are those of the packages before it,
    and the packages after it have no part in the outcome. *)
Theorem selector_stops_at_first_failure (self : PoetryLock)
    (env : PythonEnvironment) (before rest : list PoetryPackage.t)
    (package : PoetryPackage.t) :
  valid_package_list self = Some (before ++ package :: rest)%list ->
  python_target_env_spec self = Some env ->
  Forall (resolvable (supported_tags env)) before ->
  best_dist (supported_tags env) (PoetryPackage.files package) = None ->
  let chosen := fst (choose_all (supported_tags env) before) in
  map fst chosen = before /\
  value (get_preferred_distributions self)
  = inl (IncompatibleDistributionError (incompatible_message package)) /\
  package_requirements (after (get_preferred_distributions self))
  = Some (requirements_of chosen) /\
  emitted (get_preferred_distributions self) = found_records chosen /\
  (forall rest',
     get_preferred_distributions
       (set_valid_package_list (Some (before ++ package :: rest')%list) self)
     = mkOutcome (value (get_preferred_distributions self))
         (set_valid_package_list (Some (before ++ package :: rest')%list)
            (after (get_preferred_distributions self)))
         (emitted (get_preferred_distributions self))).
Proof.
  intros Hvalid Henv Hb Hp chosen.
  rewrite (get_preferred_distributions_first_failure _ _ _ _ _ Hvalid Henv Hb Hp).
  cbn [value after emitted]. fold chosen.
  split; [apply (choose_all_resolvable _ _ Hb)|].
  do 3 (split; [reflexivity|]).
  intros rest'.
  now rewrite (get_preferred_distributions_first_failure
                 (set_valid_package_list (Some (before ++ package :: rest')%list) self)
                 env before package rest' eq_refl Henv Hb Hp).
Qed.

(** C10. When the filter has returned the empty list, the selector called next
    raises [MissingLockMetadataError] instead of returning an empty list of
    requirements: the same error, with the same message, as on an object whose
    packages were never filtered. *)
Theorem selector_rejects_empty_filter_output (self : PoetryLock) :
  value (get_valid_packages_from_lock self) = inr (Some []) ->
  value (get_preferred_distributions (after (get_valid_packages_from_lock self)))
  = inl (MissingLockMetadataError not_validated_message) /\
  (forall unfiltered,
     valid_package_list unfiltered = None ->
     value (get_preferred_distributions unfiltered)
     = inl (MissingLockMetadataError not_validated_message)).
Proof.
  intros Hempty. split.
  - rewrite get_valid_packages_from_lock_unfold in *.
    destruct (python_target_env_spec self) as [env|]; [|discriminate].
    cbv zeta in *. cbn [value after] in *. injection Hempty as ->.
    now rewrite get_preferred_distributions_unfold.
  - intros unfiltered Hnone.
    now rewrite get_preferred_distributions_unfold, Hnone.
Qed.

End Selector.

(** ** The stages in sequence *)

Section Pipeline.
Context `{Externals}.

(** C6, as the code has it. With an environment supplied, the validator raises
    [InvalidLockVersionError] exactly when the schema version does not start
    with [2.]: when its major component is not [2], or when it is the bare
    string [2] without a dot.  The failure does not depend on the packages of
    the lock: whatever they are the same exception is raised, the object is
    left as it was and nothing is emitted. *)
Theorem validator_schema_version (self : PoetryLock) (env : PythonEnvironment) :
  python_target_env_spec self = Some env ->
  let lock_version :=
    PoetryLockMetadata.lock_version (PoetryLockConfig.metadata (data self)) in
  (value (validate_poetry_lock self) = inl InvalidLockVersionError
   <-> startswith lock_version "2." = false) /\
  (value (validate_poetry_lock self) = inl InvalidLockVersionError
   <-> major_component lock_version <> "2" \/ lock_version = "2") /\
  (value (validate_poetry_lock self) = inl InvalidLockVersionError ->
   forall packages,
     validate_poetry_lock (with_packages packages self)
     = mkOutcome (inl InvalidLockVersionError) (with_packages packages self) []).
Proof.
  intros Henv lock_version.
  assert (Hiff : value (validate_poetry_lock self) = inl InvalidLockVersionError
                 <-> startswith lock_version "2." = false).
  { rewrite validate_poetry_lock_unfold, Henv. cbv zeta. fold lock_version.
    destruct (startswith lock_version "2."); [|now split].
    destruct (valid_py_version _ env); cbn [value]; split; discriminate. }
  split; [exact Hiff|]. split.
  - rewrite Hiff. apply startswith_2_major.
  - intros Hraise packages. apply Hiff in Hraise.
    rewrite validate_poetry_lock_unfold.
    cbn [with_packages set_data python_target_env_spec data
         PoetryLockConfig.metadata].
    rewrite Henv. cbv zeta. fold lock_version. now rewrite Hraise.
Qed.

(** C4, as the code has it. The filter requires an environment and nothing
    else: it raises [MissingPythonEnvironmentError] exactly when none has been
    supplied and otherwise returns its list of packages, whether the validator
    has run or not.  The selector requires the list the filter recorded to be
    there and not empty, and raises [MissingLockMetadataError] exactly when it
    is not.  Neither reads the validated state. *)
Theorem filter_needs_only_environment (self : PoetryLock) :
  ((exists msg,
      value (get_valid_packages_from_lock self)
      = inl (MissingPythonEnvironmentError msg))
   <-> python_target_env_spec self = None) /\
  (forall env,
     python_target_env_spec self = Some env ->
     value (get_valid_packages_from_lock self)
     = inr (Some (kept_packages env (PoetryLockConfig.packages (data self))))) /\
  (forall validated,
     value (get_valid_packages_from_lock
              (set_poetry_lock_is_validated validated self))
     = value (get_valid_packages_from_lock self)) /\
  (forall validated,
     value (get_preferred_distributions
              (set_poetry_lock_is_validated validated self))
     = value (get_preferred_distributions self)) /\
  ((exists msg,
      value (get_preferred_distributions self) = inl (MissingLockMetadataError msg))
   <-> valid_package_list self = None \/ valid_package_list self = Some []).
Proof.
  repeat split.
  - rewrite get_valid_packages_from_lock_unfold.
    destruct (python_target_env_spec self); [intros [msg [=]] | reflexivity].
  - intros Hnone. rewrite get_valid_packages_from_lock_unfold, Hnone.
    eexists; reflexivity.
  - intros env Henv. now rewrite get_valid_packages_from_lock_unfold, Henv.
  - intros validated. rewrite !get_valid_packages_from_lock_unfold.
    cbn [set_poetry_lock_is_validated python_target_env_spec data].
    now destruct (python_target_env_spec self).
  - intros validated. rewrite !get_preferred_distributions_unfold.
    cbn [set_poetry_lock_is_validated python_target_env_spec valid_package_list].
    destruct (valid_package_list self) as [[|package rest]|]; try reflexivity.
    now destruct (python_target_env_spec self).
  - rewrite get_preferred_distributions_unfold.
    destruct (valid_package_list self) as [[|package rest]|]; [now right| |now left].
    destruct (python_target_env_spec self) as [env|]; [|intros [msg [=]]].
    cbv zeta. cbn [value].
    destruct (snd (choose_all (supported_tags env) (package :: rest)));
      intros [msg [=]].
  - intros Hvalid. rewrite get_preferred_distributions_unfold.
    destruct Hvalid as [-> | ->]; eexists; reflexivity.
Qed.

(** The three stages in sequence, case by case. *)
Lemma resolve_unfold (self : PoetryLock) :
  resolve self =
  match python_target_env_spec self with
  | None =>
      mkOutcome (inl (MissingPythonEnvironmentError "No Python environment specified"))
        self []
  | Some env =>
      let metadata := PoetryLockConfig.metadata (data self) in
      if startswith (PoetryLockMetadata.lock_version metadata) "2." then
        if valid_py_version (PoetryLockMetadata.python_versions metadata) env then
          let packages := PoetryLockConfig.packages (data self) in
          let kept := kept_packages env packages in
          let filtered :=
            set_valid_package_list (Some kept)
              (set_poetry_lock_is_validated true self) in
          let left_out :=
            map (fun package => LoggerDebug (not_compatible_message env package))
              (excluded_packages env packages) in
          match kept with
          | [] =>
              mkOutcome (inl (MissingLockMetadataError not_validated_message))
                filtered left_out
          | _ :: _ =>
              let chosen := fst (choose_all (supported_tags env) kept) in
              mkOutcome
                (match snd (choose_all (supported_tags env) kept) with
                 | Some package =>
                     inl (IncompatibleDistributionError (incompatible_message package))
                 | None => inr (Some (requirements_of chosen))
                 end)
                (set_package_requirements (Some (requirements_of chosen)) filtered)
                (left_out ++ found_records chosen)%list
          end
        else mkOutcome
               (inl (InvalidLockFileError
                       "Poetry lock file not compatible with target Python version"))
               self []
      else mkOutcome (inl InvalidLockVersionError) self []
  end.
Proof.
  unfold resolve. run_method. rewrite validate_poetry_lock_unfold.
  destruct (python_target_env_spec self) as [env|] eqn:Henv; [|reflexivity].
  cbv zeta. destruct (startswith _ "2."); [|reflexivity].
  destruct (valid_py_version _ env); [|reflexivity].
  cbn [value after emitted app].
  rewrite get_valid_packages_from_lock_unfold.
  cbn [set_poetry_lock_is_validated python_target_env_spec data].
  rewrite Henv. cbv zeta. cbn [value after emitted].
  rewrite get_preferred_distributions_unfold.
  cbn [set_valid_package_list valid_package_list python_target_env_spec].
  destruct (kept_packages env (PoetryLockConfig.packages (data self)))
    as [|package kept].
  - cbn [value after emitted]. now rewrite app_nil_r.
  - change (python_target_env_spec (set_poetry_lock_is_validated true self))
      with (python_target_env_spec self).
    rewrite Henv. cbv zeta. reflexivity.
Qed.

(** C9. The three stages run a second time on the same object, with the same
    lock and environment, return what the first run returned: the same list of
    requirements (or the same exception); the second run also emits the same
    records and leaves the object as the first run left it.  The value returned
    depends on the lock and the environment alone, not on what earlier calls
    left in the other attributes. *)
Theorem resolve_twice (self : PoetryLock) :
  value (resolve (after (resolve self))) = value (resolve self) /\
  emitted (resolve (after (resolve self))) = emitted (resolve self) /\
  after (resolve (after (resolve self))) = after (resolve self) /\
  (forall is_validated valid requirements,
     value (resolve (mkPoetryLock (data self) (python_target_env_spec self)
                       is_validated valid requirements))
     = value (resolve self)).
Proof.
  assert (Hsame : resolve (after (resolve self)) = resolve self).
  { rewrite (resolve_unfold self).
    destruct (python_target_env_spec self) as [env|] eqn:Henv.
    - cbv zeta.
      destruct (startswith _ "2.") eqn:Hver.
      + destruct (valid_py_version _ env) eqn:Hvalid.
        * destruct (kept_packages env (PoetryLockConfig.packages (data self)))
            as [|package kept] eqn:Hkept;
            cbn [after]; rewrite resolve_unfold;
            cbn [set_package_requirements set_valid_package_list
                 set_poetry_lock_is_validated python_target_env_spec data];
            rewrite Henv; cbv zeta; rewrite Hver, Hvalid, Hkept; reflexivity.
        * cbn [after]. rewrite resolve_unfold, Henv. cbv zeta.
          now rewrite Hver, Hvalid.
      + cbn [after]. rewrite resolve_unfold, Henv. cbv zeta. now rewrite Hver.
    - cbn [after]. now rewrite resolve_unfold, Henv. }
  rewrite Hsame. do 3 (split; [reflexivity|]).
  intros is_validated valid requirements. rewrite !resolve_unfold.
  cbn [data python_target_env_spec].
  destruct (python_target_env_spec self) as [env|]; [|reflexivity].
  cbv zeta. destruct (startswith _ "2."); [|reflexivity].
  destruct (valid_py_version _ env); [|reflexivity].
  now destruct (kept_packages env (PoetryLockConfig.packages (data self))).
Qed.

End Pipeline.

(** * The properties at concrete locks *)

(** ** Scenarios *)

(** A schema [2.0] lock whose package has one universal wheel resolves to that
    wheel's fingerprint, with no index URL. *)
Example scenario_universal_wheel :
  value (resolve (loaded (lock_of "2.0" (Some "3") [requests])))
  = inr (Some [PythonRequirement.mk "requests" "2.31.0" "sha256:58cd" None]).
Proof. reflexivity. Qed.

(** Of the wheels of [numpy] the one whose tag comes first in the table is
    taken, although another matching wheel precedes it in the file list. *)
Example scenario_best_wheel :
  best_dist (supported_tags cpython311) (PoetryPackage.files numpy)
  = Some (PoetryFile.mk "numpy-1.26.0-cp311-cp311-manylinux_2_17_x86_64.whl"
            "sha256:2222").
Proof. reflexivity. Qed.

(** A package with only a [cp27] wheel and a source archive is refused. *)
Example scenario_incompatible :
  value (resolve (loaded (lock_of "2.0" None [legacy_pkg])))
  = inl (IncompatibleDistributionError
           "Could not find a distribution for legacy-pkg==0.1.0 that is compatible with target environment.").
Proof. reflexivity. Qed.

(** A schema [1.0] lock is refused by the validator. *)
Example scenario_unsupported_schema :
  validate_poetry_lock (loaded (lock_of "1.0" None [requests]))
  = mkOutcome (inl InvalidLockVersionError)
      (loaded (lock_of "1.0" None [requests])) [].
Proof. reflexivity. Qed.

(** Without an environment every stage that needs one raises. *)
Example scenario_missing_environment :
  value (validate_poetry_lock (init (lock_of "2.0" None [requests])))
  = inl (MissingPythonEnvironmentError "No Python environment specified") /\
  value (get_valid_packages_from_lock (init (lock_of "2.0" None [requests])))
  = inl (MissingPythonEnvironmentError "No Python environment specified").
Proof. split; reflexivity. Qed.

(** ** Instances of the theorems *)

Ltac no_match_here :=
  let Hb := fresh "Hb" in
  let Hi := fresh "Hi" in
  intros ? ? Hin [Hb Hi]; simpl in Hin;
  repeat (destruct Hin as [<-|Hin]; [vm_compute in Hb, Hi; discriminate|]);
  destruct Hin.

Lemma selector_prefers_minimal_index_witness :
  exists dist i,
    first_minimal (supported_tags cpython311) (PoetryPackage.files numpy) dist i /\
    best_dist (supported_tags cpython311) (PoetryPackage.files numpy) = Some dist /\
    (forall self reqs,
       package_requirements self = Some reqs ->
       value (select_distribution (supported_tags cpython311) numpy self) = inr tt /\
       package_requirements
         (after (select_distribution (supported_tags cpython311) numpy self))
       = Some (reqs ++ [requirement numpy dist])%list) /\
    (forall self before rest,
       valid_package_list self = Some (before ++ numpy :: rest)%list ->
       python_target_env_spec self = Some cpython311 ->
       Forall (resolvable (supported_tags cpython311)) before ->
       (exists recorded,
          package_requirements (after (get_preferred_distributions self))
          = Some recorded /\
          nth_error recorded (length before) = Some (requirement numpy dist)) /\
       In (LoggerDebug (found_message dist))
         (emitted (get_preferred_distributions self)) /\
       (Forall (resolvable (supported_tags cpython311)) rest ->
        exists reqs,
          value (get_preferred_distributions self) = inr (Some reqs) /\
          nth_error reqs (length before) = Some (requirement numpy dist))).
Proof.
  apply (selector_prefers_minimal_index cpython311 numpy).
  exists (PoetryFile.mk "numpy-1.26.0-cp311-abi3-manylinux_2_17_x86_64.whl"
            "sha256:1111"), 1.
  split; [simpl; auto | split; reflexivity].
Defined.

Lemma selector_falls_back_to_source_witness :
  exists dist,
    first_source (PoetryPackage.files six) dist /\
    best_dist (supported_tags cpython311) (PoetryPackage.files six) = Some dist /\
    (forall self reqs,
       package_requirements self = Some reqs ->
       value (select_distribution (supported_tags cpython311) six self) = inr tt /\
       package_requirements
         (after (select_distribution (supported_tags cpython311) six self))
       = Some (reqs ++ [requirement six dist])%list) /\
    (forall self before rest,
       valid_package_list self = Some (before ++ six :: rest)%list ->
       python_target_env_spec self = Some cpython311 ->
       Forall (resolvable (supported_tags cpython311)) before ->
       (exists recorded,
          package_requirements (after (get_preferred_distributions self))
          = Some recorded /\
          nth_error recorded (length before) = Some (requirement six dist)) /\
       In (LoggerDebug (found_message dist))
         (emitted (get_preferred_distributions self)) /\
       (Forall (resolvable (supported_tags cpython311)) rest ->
        exists reqs,
          value (get_preferred_distributions self) = inr (Some reqs) /\
          nth_error reqs (length before) = Some (requirement six dist))).
Proof.
  apply (selector_falls_back_to_source cpython311 six).
  - no_match_here.
  - intros dist Hin Hb. simpl in Hin.
    repeat (destruct Hin as [<-|Hin];
            [first [reflexivity | vm_compute in Hb; discriminate]|]).
    destruct Hin.
  - exists (PoetryFile.mk "six-1.16.0.tar.gz" "sha256:7777").
    split; [simpl; auto | reflexivity].
Defined.

(** The selector called on the list [requests; numpy; six] returns for
    [numpy] its [cp311] wheel and for [six] its source archive, each at its
    place. *)
Example scenario_whole_call :
  value (get_preferred_distributions
           (filtered (lock_of "2.0" None [requests; numpy; six])))
  = inr (Some [PythonRequirement.mk "requests" "2.31.0" "sha256:58cd" None;
               PythonRequirement.mk "numpy" "1.26.0" "sha256:2222" None;
               PythonRequirement.mk "six" "1.16.0" "sha256:7777" None]).
Proof. reflexivity. Qed.

Lemma selector_rejects_incompatible_witness :
  exists msg,
    contains msg (PoetryPackage.name legacy_pkg) /\
    contains msg (PoetryPackage.version legacy_pkg) /\
    (forall self,
       value (select_distribution (supported_tags cpython311) legacy_pkg self)
       = inl (IncompatibleDistributionError msg)) /\
    (forall self before rest,
       valid_package_list self = Some (before ++ legacy_pkg :: rest)%list ->
       python_target_env_spec self = Some cpython311 ->
       Forall (resolvable (supported_tags cpython311)) before ->
       value (get_preferred_distributions self)
       = inl (IncompatibleDistributionError msg)).
Proof.
  apply (selector_rejects_incompatible cpython311 legacy_pkg).
  - no_match_here.
  - left.
    exists (PoetryFile.mk "legacy_pkg-0.1.0-cp27-cp27m-manylinux1_x86_64.whl"
              "sha256:4444").
    split; [simpl; auto | split; [reflexivity | discriminate]].
Defined.

Lemma selector_stops_at_first_failure_witness :
  value (get_preferred_distributions
           (filtered (lock_of "2.0" None [requests; legacy_pkg; numpy])))
  = inl (IncompatibleDistributionError (incompatible_message legacy_pkg)) /\
  package_requirements
    (after (get_preferred_distributions
              (filtered (lock_of "2.0" None [requests; legacy_pkg; numpy]))))
  = Some [PythonRequirement.mk "requests" "2.31.0" "sha256:58cd" None].
Proof.
  pose proof (selector_stops_at_first_failure
                (filtered (lock_of "2.0" None [requests; legacy_pkg; numpy]))
                cpython311 [requests] [numpy] legacy_pkg eq_refl eq_refl) as W.
  assert (Hbefore : Forall (resolvable (supported_tags cpython311)) [requests]).
  { constructor; [discriminate | constructor]. }
  destruct (W Hbefore eq_refl) as (_ & Hvalue & Hrecorded & _).
  split; [exact Hvalue | exact Hrecorded].
Defined.

(** Against C5: after the failure of [legacy-pkg], [requests], which follows
    it and has an acceptable distribution, has been neither recorded nor
    logged. *)
Lemma selector_abandons_remaining_packages :
  valid_package_list (filtered (lock_of "2.0" None [legacy_pkg; requests]))
  = Some [legacy_pkg; requests] /\
  resolved (supported_tags cpython311) requests
  = Some (PythonRequirement.mk "requests" "2.31.0" "sha256:58cd" None) /\
  get_preferred_distributions (filtered (lock_of "2.0" None [legacy_pkg; requests]))
  = mkOutcome
      (inl (IncompatibleDistributionError
              "Could not find a distribution for legacy-pkg==0.1.0 that is compatible with target environment."))
      (set_package_requirements (Some [])
         (filtered (lock_of "2.0" None [legacy_pkg; requests])))
      [].
Proof. repeat split. Qed.

Lemma validator_schema_version_witness :
  value (validate_poetry_lock (loaded (lock_of "1.0" None [requests])))
  = inl InvalidLockVersionError /\
  forall packages,
    validate_poetry_lock
      (with_packages packages (loaded (lock_of "1.0" None [requests])))
    = mkOutcome (inl InvalidLockVersionError)
        (with_packages packages (loaded (lock_of "1.0" None [requests]))) [].
Proof.
  destruct (validator_schema_version (loaded (lock_of "1.0" None [requests]))
              cpython311 eq_refl) as (Hprefix & _ & Hpackages).
  assert (Hraise := proj2 Hprefix eq_refl).
  split; [exact Hraise | exact (Hpackages Hraise)].
Defined.

(** Against C6: the major component of the schema version [2] is [2], and the
    validator refuses the lock. *)
Lemma validator_rejects_bare_major_2 :
  major_component "2" = "2" /\
  value (validate_poetry_lock (loaded (lock_of "2" None [requests])))
  = inl InvalidLockVersionError.
Proof. split; reflexivity. Qed.

(** Against C4: on an object the validator has refused, and whose validated
    state is false, the filter returns a list of packages. *)
Lemma filter_runs_without_validation :
  value (validate_poetry_lock (loaded (lock_of "1.0" (Some "3") [requests; backport])))
  = inl InvalidLockVersionError /\
  poetry_lock_is_validated (validated (lock_of "1.0" (Some "3") [requests; backport]))
  = false /\
  value (get_valid_packages_from_lock
           (validated (lock_of "1.0" (Some "3") [requests; backport])))
  = inr (Some [requests]).
Proof. repeat split. Qed.

Lemma filter_keeps_admitted_packages_witness :
  value (get_valid_packages_from_lock
           (validated (lock_of "2.0" (Some "3") [requests; backport; numpy])))
  = inr (Some [requests; numpy]) /\
  emitted (get_valid_packages_from_lock
             (validated (lock_of "2.0" (Some "3") [requests; backport; numpy])))
  = [LoggerDebug
       "Package backport is not compatible with the target Python version 3.11.4."].
Proof.
  destruct (filter_keeps_admitted_packages
              (validated (lock_of "2.0" (Some "3") [requests; backport; numpy]))
              cpython311 eq_refl) as (Hvalue & _ & _ & _ & Hlog & _).
  split; [exact Hvalue | exact Hlog].
Defined.

Lemma validator_incompatible_lock_witness :
  exists msg,
    value (validate_poetry_lock (loaded (lock_of "2.0" (Some "2") [requests])))
    = inl (InvalidLockFileError msg).
Proof.
  apply (proj1 (validator_incompatible_lock
                  (loaded (lock_of "2.0" (Some "2") [requests]))
                  cpython311 eq_refl eq_refl)).
  exists "2". split; [reflexivity | split; [discriminate | reflexivity]].
Defined.

Lemma selector_rejects_empty_filter_output_witness :
  value (get_preferred_distributions (filtered (lock_of "2.0" None [backport])))
  = inl (MissingLockMetadataError not_validated_message) /\
  (forall unfiltered,
     valid_package_list unfiltered = None ->
     value (get_preferred_distributions unfiltered)
     = inl (MissingLockMetadataError not_validated_message)).
Proof.
  exact (selector_rejects_empty_filter_output
           (validated (lock_of "2.0" None [backport])) eq_refl).
Defined.

(** * Further properties of the code *)

(** ** The choice of a distribution, characterised *)

Section ChoiceCharacterised.
Context `{Externals}.
Variable supported : list Tag.

Lemma is_platform_specific_inv (distributions : list PoetryFile.t) :
  is_platform_specific distributions = true ->
  exists dist, In dist distributions /\ is_binary dist /\ ~ is_universal dist.
Proof.
  unfold is_platform_specific. intros Hany.
  destruct (filter _ (filter _ distributions)) as [|d l] eqn:Hf; [discriminate|].
  assert (Hd : In d (d :: l)) by now left.
  rewrite <- Hf in Hd. apply filter_In in Hd as [Hd Hnot].
  apply filter_In in Hd as [Hd Hbin].
  exists d. repeat split; [assumption | assumption |].
  unfold is_universal. intros Hu. rewrite Hu in Hnot. discriminate.
Qed.

Lemma all_universal_when_not_specific (distributions : list PoetryFile.t) :
  is_platform_specific distributions = false ->
  forall dist, In dist distributions -> is_binary dist -> is_universal dist.
Proof.
  intros Hpsf dist Hin Hbin. unfold is_universal.
  destruct (endswith (PoetryFile.file dist) "none-any.whl") eqn:Hu; [reflexivity|].
  rewrite (platform_specific distributions dist Hin Hbin) in Hpsf; [discriminate|].
  unfold is_universal. congruence.
Qed.

(** X1. Whenever the selector's inner loop ends with a distribution, that
    distribution is either the first matching wheel of least index, or - no
    wheel matching and every wheel being a universal one - the first
    [.tar.gz] file: the selector chooses in no other way. *)
Theorem best_dist_chosen_only_so (package : PoetryPackage.t) (dist : PoetryFile.t) :
  best_dist supported (PoetryPackage.files package) = Some dist ->
  (exists i, first_minimal supported (PoetryPackage.files package) dist i) \/
  (none_matches supported (PoetryPackage.files package) /\
   (forall d, In d (PoetryPackage.files package) -> is_binary d -> is_universal d) /\
   first_source (PoetryPackage.files package) dist).
Proof.
  intros Hbest.
  destruct (best_dist_cases supported (PoetryPackage.files package))
    as [(d & i & Hd & Hfm)|[Hnone Hsrc]].
  - left. exists i. congruence.
  - right. rewrite Hbest in Hsrc.
    destruct (is_platform_specific (PoetryPackage.files package)) eqn:Hpsf;
      [discriminate|].
    split; [assumption|]. split; [now apply all_universal_when_not_specific|].
    symmetry in Hsrc.
    destruct (find_first _ _ _ Hsrc) as (before & after & E & Hs & Hb).
    exists before, after. repeat split; [assumption | assumption |].
    intros y Hy Hys. unfold is_source in Hys. rewrite (Hb y Hy) in Hys. discriminate.
Qed.

(** X2. The selector's inner loop ends without a distribution exactly when no
    wheel of the package matches the table and either one of its wheels is
    platform-specific or it has no [.tar.gz] file: the package is refused in
    these cases and in no other. *)
Theorem best_dist_fails_exactly (package : PoetryPackage.t) :
  best_dist supported (PoetryPackage.files package) = None <->
  none_matches supported (PoetryPackage.files package) /\
  ((exists dist, In dist (PoetryPackage.files package) /\
      is_binary dist /\ ~ is_universal dist) \/
   (forall dist, In dist (PoetryPackage.files package) -> ~ is_source dist)).
Proof.
  split.
  - intros Hbest.
    destruct (best_dist_cases supported (PoetryPackage.files package))
      as [(d & i & Hd & _)|[Hnone Hsrc]]; [congruence|].
    split; [assumption|]. rewrite Hbest in Hsrc.
    destruct (is_platform_specific (PoetryPackage.files package)) eqn:Hpsf.
    + left. now apply is_platform_specific_inv.
    + right. intros dist Hin Hs. symmetry in Hsrc.
      pose proof (find_none _ _ Hsrc dist Hin) as Hnot. simpl in Hnot.
      unfold is_source in Hs. congruence.
  - intros [Hnone Hwhy]. now apply best_dist_none.
Qed.

Lemma fold_left_filter_skip {A B : Type} (f : B -> A -> B) (keep : A -> bool)
    (l : list A) (b : B) :
  (forall b x, keep x = false -> f b x = b) ->
  fold_left f (filter keep l) b = fold_left f l b.
Proof.
  intros Hskip. revert b. induction l as [|x l IH]; intros b; simpl; [reflexivity|].
  destruct (keep x) eqn:Hk; simpl; [apply IH|].
  rewrite (Hskip b x Hk). apply IH.
Qed.

Lemma filter_implied {A : Type} (f g : A -> bool) (l : list A) :
  (forall x, f x = true -> g x = true) ->
  filter f (filter g l) = filter f l.
Proof.
  intros Himp. induction l as [|x l IH]; simpl; [reflexivity|].
  destruct (g x) eqn:Hg; simpl.
  - now rewrite IH.
  - destruct (f x) eqn:Hf; [|assumption].
    rewrite (Himp x Hf) in Hg. discriminate.
Qed.

Lemma is_platform_specific_selectable (distributions : list PoetryFile.t) :
  is_platform_specific (filter selectable distributions)
  = is_platform_specific distributions.
Proof.
  unfold is_platform_specific. cbv zeta.
  rewrite (filter_implied (fun d => endswith (PoetryFile.file d) ".whl") selectable);
    [reflexivity|].
  intros x Hx. unfold selectable. now rewrite Hx.
Qed.

(** X3. Files that end in neither [.whl] nor [.tar.gz] have no part in the
    selection: with them taken out of the file list the inner loop ends with the
    same distribution. *)
Theorem best_dist_ignores_other_files (distributions : list PoetryFile.t) :
  best_dist supported (filter selectable distributions)
  = best_dist supported distributions.
Proof.
  unfold best_dist. rewrite is_platform_specific_selectable.
  rewrite fold_left_filter_skip; [reflexivity|].
  intros [best min_tag_index] x Hx. unfold selectable in Hx.
  apply orb_false_iff in Hx as [Hwhl Htar].
  unfold consider. rewrite Hwhl, Htar, andb_false_r. reflexivity.
Qed.

(** X4. The order of the files does not matter to the choice among wheels
    whose indices in the table differ: when some wheel matches and no two
    matching files share an index, every reordering of the file list ends with
    the same distribution. *)
Theorem best_dist_order_independent (distributions reordered : list PoetryFile.t) :
  Permutation distributions reordered ->
  (exists dist i, In dist distributions /\ matches supported dist i) ->
  (forall d d' i, In d distributions -> In d' distributions ->
     matches supported d i -> matches supported d' i -> d = d') ->
  best_dist supported reordered = best_dist supported distributions.
Proof.
  intros Hperm (m & k & Hm & Hk) Hdistinct.
  destruct (best_dist_cases supported distributions)
    as [(d & i & Hd & Hfm)|[Hnone _]]; [|now destruct (Hnone m k Hm)].
  destruct (best_dist_cases supported reordered)
    as [(d' & i' & Hd' & Hfm')|[Hnone _]].
  - rewrite Hd, Hd'. f_equal.
    assert (Hin : In d distributions).
    { destruct Hfm as (b & a & -> & _). apply in_or_app. right. now left. }
    assert (Hin' : In d' reordered).
    { destruct Hfm' as (b & a & -> & _). apply in_or_app. right. now left. }
    assert (Hmd : matches supported d i) by now destruct Hfm as (b & a & _ & M & _).
    assert (Hmd' : matches supported d' i')
      by now destruct Hfm' as (b & a & _ & M & _).
    pose proof (first_minimal_bound supported _ _ _ d i Hfm'
                  (Permutation_in _ Hperm Hin) Hmd) as Hle'.
    pose proof (first_minimal_bound supported _ _ _ d' i' Hfm
                  (Permutation_in _ (Permutation_sym Hperm) Hin') Hmd') as Hle.
    assert (i' = i) by lia. subst i'.
    apply (Hdistinct d' d i);
      [exact (Permutation_in _ (Permutation_sym Hperm) Hin') | | |]; assumption.
  - now destruct (Hnone m k (Permutation_in _ Hperm Hm)).
Qed.

End ChoiceCharacterised.

(** ** The attributes across calls *)

Section AcrossCalls.
Context `{Externals}.

Lemma add_target_environment_specification_unfold env (self : PoetryLock) :
  add_target_environment_specification env self =
  mkOutcome (inr tt) (set_python_target_env_spec (Some env) self)
    (match python_target_env_spec self with
     | Some _ =>
         [WarningsWarn
            "Environment specification has already been set and will be overwritten."]
     | None => []
     end).
Proof.
  unfold add_target_environment_specification. run_method.
  now destruct (python_target_env_spec self).
Qed.

Lemma best_dist_in supported (package : PoetryPackage.t) (dist : PoetryFile.t) :
  best_dist supported (PoetryPackage.files package) = Some dist ->
  In dist (PoetryPackage.files package).
Proof.
  intros Hbest.
  destruct (best_dist_cases supported (PoetryPackage.files package))
    as [(d & i & Hd & (b & a & E & _))|[_ Hsrc]].
  - assert (d = dist) by congruence. subst d.
    rewrite E. apply in_or_app. right. now left.
  - rewrite Hbest in Hsrc.
    destruct (is_platform_specific _); [discriminate|].
    symmetry in Hsrc. now apply find_some in Hsrc.
Qed.

(** What [choose_all] has chosen: for each package one of its own files. *)
Lemma choose_all_chosen supported (packages : list PoetryPackage.t) :
  Forall2 (fun package r =>
             exists dist, In dist (PoetryPackage.files package) /\
                          r = requirement package dist)
    (map fst (fst (choose_all supported packages)))
    (requirements_of (fst (choose_all supported packages))).
Proof.
  induction packages as [|package rest IH]; cbn [choose_all]; [constructor|].
  destruct (best_dist supported (PoetryPackage.files package)) as [dist|] eqn:Hbest;
    [|constructor].
  destruct (choose_all supported rest) as [chosen failed].
  cbn [fst snd map requirements_of] in *. constructor; [|exact IH].
  exists dist. split; [now apply (best_dist_in supported)|reflexivity].
Qed.

Lemma choose_all_complete supported (packages : list PoetryPackage.t) :
  snd (choose_all supported packages) = None ->
  map fst (fst (choose_all supported packages)) = packages.
Proof.
  induction packages as [|package rest IH]; cbn [choose_all]; [reflexivity|].
  destruct (best_dist supported (PoetryPackage.files package)); [|discriminate].
  destruct (choose_all supported rest) as [chosen failed].
  cbn [fst snd map] in *. intros Hf. now rewrite (IH Hf).
Qed.

Lemma choose_all_prefix supported (packages : list PoetryPackage.t) :
  forall package,
    In package (map fst (fst (choose_all supported packages))) ->
    In package packages.
Proof.
  induction packages as [|p rest IH]; cbn [choose_all]; [intros ? []|].
  destruct (best_dist supported (PoetryPackage.files p)); [|intros ? []].
  destruct (choose_all supported rest) as [chosen failed].
  cbn [fst snd map] in *. intros package [<-|Hin]; [now left | right; now apply IH].
Qed.

Lemma choose_all_failed supported (packages : list PoetryPackage.t) package :
  snd (choose_all supported packages) = Some package ->
  In package packages /\
  best_dist supported (PoetryPackage.files package) = None.
Proof.
  induction packages as [|p rest IH]; cbn [choose_all]; [discriminate|].
  destruct (best_dist supported (PoetryPackage.files p)) eqn:Hbest.
  - destruct (choose_all supported rest) as [chosen failed]. cbn [snd] in *.
    intros Hf. destruct (IH Hf) as [Hin Hnone]. split; [now right | assumption].
  - cbn [snd]. intros [= <-]. split; [now left | assumption].
Qed.

(** X5. When the selector returns, it returns one requirement for each package
    of the (non-empty) filtered list, in the order of that list; each carries
    its package's name and version, the hash of one of that package's own
    files, and the package's source URL; the same list is left in
    [package_requirements]. *)
Theorem selector_returns_one_requirement_per_package (self : PoetryLock)
    (returned : option (list PythonRequirement.t)) :
  value (get_preferred_distributions self) = inr returned ->
  exists packages reqs,
    valid_package_list self = Some packages /\ packages <> [] /\
    returned = Some reqs /\
    package_requirements (after (get_preferred_distributions self)) = Some reqs /\
    Forall2 (fun package r =>
               exists dist,
                 In dist (PoetryPackage.files package) /\
                 r = PythonRequirement.mk (PoetryPackage.name package)
                       (PoetryPackage.version package) (PoetryFile.hash dist)
                       (source_url package))
      packages reqs.
Proof.
  rewrite get_preferred_distributions_unfold.
  destruct (valid_package_list self) as [[|package rest]|]; try discriminate.
  destruct (python_target_env_spec self) as [env|]; [|discriminate].
  cbv zeta. cbn [value after].
  destruct (snd (choose_all (supported_tags env) (package :: rest))) eqn:Hfailed;
    [discriminate|].
  intros [= <-].
  exists (package :: rest),
    (requirements_of (fst (choose_all (supported_tags env) (package :: rest)))).
  split; [reflexivity|]. split; [discriminate|]. split; [reflexivity|].
  split; [reflexivity|].
  pose proof (choose_all_chosen (supported_tags env) (package :: rest)) as Hall.
  now rewrite (choose_all_complete _ _ Hfailed) in Hall.
Qed.

(** X6. No method clears the validated state: once [poetry_lock_is_validated]
    is true it stays true after a validation that raises, after another
    environment is supplied, and after the filter and the selector. *)
Theorem validated_is_never_cleared (self : PoetryLock) :
  poetry_lock_is_validated self = true ->
  poetry_lock_is_validated (after (validate_poetry_lock self)) = true /\
  (forall env,
     poetry_lock_is_validated (after (add_target_environment_specification env self))
     = true) /\
  poetry_lock_is_validated (after (get_valid_packages_from_lock self)) = true /\
  poetry_lock_is_validated (after (get_preferred_distributions self)) = true.
Proof.
  intros Hv. repeat split.
  - rewrite validate_poetry_lock_unfold.
    destruct (python_target_env_spec self) as [env|]; [|assumption].
    cbv zeta. destruct (startswith _ "2."); [|assumption].
    now destruct (valid_py_version _ env).
  - intros env. now rewrite add_target_environment_specification_unfold.
  - rewrite get_valid_packages_from_lock_unfold.
    now destruct (python_target_env_spec self).
  - rewrite get_preferred_distributions_unfold.
    destruct (valid_package_list self) as [[|package rest]|]; try assumption.
    now destruct (python_target_env_spec self).
Qed.


End AcrossCalls.

(** ** Objects reached by calling the methods *)

Section Reachable.
Context `{Externals}.

Lemma Forall2_in_right {A B : Type} (R : A -> B -> Prop) (l : list A) (l' : list B) :
  Forall2 R l l' -> forall b, In b l' -> exists a, In a l /\ R a b.
Proof.
  induction 1 as [|a b l l' Hab _ IH]; intros x Hx; [destruct Hx|].
  destruct Hx as [<-|Hx].
  - exists a. split; [now left | assumption].
  - destruct (IH x Hx) as (a' & Hin & Hr). exists a'. split; [now right | assumption].
Qed.

Lemma coherent_init (parsed : PoetryLockConfig.t) : coherent parsed (init parsed).
Proof.
  repeat split; simpl; try discriminate.
Qed.

Lemma coherent_add_target_environment_specification parsed env self :
  coherent parsed self ->
  coherent parsed (after (add_target_environment_specification env self)).
Proof.
  intros (Hdata & _ & Hvalid & Hreqs).
  rewrite add_target_environment_specification_unfold. cbn [after].
  split; [exact Hdata|]. split; [discriminate|]. split; [|exact Hreqs].
  intros packages Hp. split; [discriminate|]. exact (proj2 (Hvalid packages Hp)).
Qed.

Lemma coherent_validate_poetry_lock parsed self :
  coherent parsed self -> coherent parsed (after (validate_poetry_lock self)).
Proof.
  intros Hc. rewrite validate_poetry_lock_unfold.
  destruct (python_target_env_spec self) as [env|] eqn:Henv; [|exact Hc].
  cbv zeta. destruct (startswith _ "2."); [|exact Hc].
  destruct (valid_py_version _ env); [|exact Hc].
  destruct Hc as (Hdata & _ & Hvalid & Hreqs). cbn [after].
  split; [exact Hdata|]. split; [|split; [exact Hvalid | exact Hreqs]].
  intros _. cbn [set_poetry_lock_is_validated python_target_env_spec].
  rewrite Henv. discriminate.
Qed.

Lemma coherent_get_valid_packages_from_lock parsed self :
  coherent parsed self -> coherent parsed (after (get_valid_packages_from_lock self)).
Proof.
  intros Hc. rewrite get_valid_packages_from_lock_unfold.
  destruct (python_target_env_spec self) as [env|] eqn:Henv; [|exact Hc].
  destruct Hc as (Hdata & Hval & _ & Hreqs). cbv zeta. cbn [after].
  split; [exact Hdata|]. split; [exact Hval|]. split; [|exact Hreqs].
  cbn [set_valid_package_list valid_package_list python_target_env_spec].
  intros packages [= <-]. rewrite Henv. split; [discriminate|].
  exists env. now rewrite Hdata.
Qed.

Lemma coherent_get_preferred_distributions parsed self :
  coherent parsed self -> coherent parsed (after (get_preferred_distributions self)).
Proof.
  intros Hc. rewrite get_preferred_distributions_unfold.
  destruct (valid_package_list self) as [[|package rest]|] eqn:Hvalid;
    try exact Hc.
  destruct Hc as (Hdata & Hval & Hlist & _).
  destruct (Hlist _ Hvalid) as (Henv & env0 & Hkept).
  destruct (python_target_env_spec self) as [env|] eqn:Hself; [|now destruct Henv].
  cbv zeta. cbn [after].
  assert (Hset : forall v,
            python_target_env_spec (set_package_requirements v self) <> None).
  { intros v. cbn [set_package_requirements python_target_env_spec].
    rewrite Hself. discriminate. }
  split; [exact Hdata|]. split; [intros _; apply Hset|]. split.
  - intros packages Hp. split; [apply Hset|].
    cbn [set_package_requirements valid_package_list] in Hp.
    rewrite Hvalid in Hp. injection Hp as <-. now exists env0.
  - cbn [set_package_requirements package_requirements].
    intros reqs r [= <-] Hr.
    destruct (Forall2_in_right _ _ _
                (choose_all_chosen (supported_tags env) (package :: rest)) r Hr)
      as (p & Hp & dist & Hdist & ->).
    exists p, dist. split; [|split; [assumption | reflexivity]].
    apply choose_all_prefix in Hp. rewrite Hkept in Hp.
    unfold kept_packages in Hp. now apply filter_In in Hp.
Qed.

Lemma reachable_coherent parsed self : reachable parsed self -> coherent parsed self.
Proof.
  intros Hr.
  induction Hr as [|env self _ IH|self _ IH|self _ IH|self _ IH].
  - apply coherent_init.
  - now apply coherent_add_target_environment_specification.
  - now apply coherent_validate_poetry_lock.
  - now apply coherent_get_valid_packages_from_lock.
  - now apply coherent_get_preferred_distributions.
Qed.

(** X8. On every object obtained from a freshly initialised one by calls of
    the four methods, in any order and with any environments: [data] is still
    the lock that was parsed; a true validated state and a recorded list of
    valid packages each imply that an environment is set; the recorded list is
    what the filter keeps of the lock's packages for some environment; and every
    recorded requirement is that of a package of the lock, with the hash of one
    of that package's own files. *)
Theorem reachable_objects_are_coherent (parsed : PoetryLockConfig.t)
    (self : PoetryLock) :
  reachable parsed self ->
  data self = parsed /\
  (poetry_lock_is_validated self = true -> python_target_env_spec self <> None) /\
  (forall packages,
     valid_package_list self = Some packages ->
     python_target_env_spec self <> None /\
     exists env, packages = kept_packages env (PoetryLockConfig.packages parsed)) /\
  (forall reqs r,
     package_requirements self = Some reqs -> In r reqs ->
     exists package dist,
       In package (PoetryLockConfig.packages parsed) /\
       In dist (PoetryPackage.files package) /\
       r = requirement package dist).
Proof. exact (reachable_coherent parsed self). Qed.

(** X9. On such an object the selector raises nothing but
    [MissingLockMetadataError], when no package has been kept, or
    [IncompatibleDistributionError] for a package of the lock that has no
    acceptable distribution; in particular the environment it reads is always
    there. *)
Theorem selector_errors_on_reachable_objects (parsed : PoetryLockConfig.t)
    (self : PoetryLock) (e : Exception) :
  reachable parsed self ->
  value (get_preferred_distributions self) = inl e ->
  (e = MissingLockMetadataError not_validated_message /\
   (valid_package_list self = None \/ valid_package_list self = Some [])) \/
  (exists env package,
     python_target_env_spec self = Some env /\
     In package (PoetryLockConfig.packages parsed) /\
     best_dist (supported_tags env) (PoetryPackage.files package) = None /\
     e = IncompatibleDistributionError (incompatible_message package)).
Proof.
  intros Hr. apply reachable_coherent in Hr. destruct Hr as (Hdata & _ & Hlist & _).
  rewrite get_preferred_distributions_unfold.
  destruct (valid_package_list self) as [[|package rest]|] eqn:Hvalid.
  - intros [= <-]. left. split; [reflexivity | now right].
  - destruct (Hlist _ eq_refl) as (Henv & env0 & Hkept).
    destruct (python_target_env_spec self) as [env|]; [|now destruct Henv].
    cbv zeta. cbn [value].
    destruct (snd (choose_all (supported_tags env) (package :: rest)))
      as [failed|] eqn:Hfailed; [|discriminate].
    intros [= <-]. right. exists env, failed.
    destruct (choose_all_failed _ _ _ Hfailed) as [Hin Hnone].
    split; [reflexivity|]. split; [|split; [assumption | reflexivity]].
    rewrite Hkept in Hin. unfold kept_packages in Hin. now apply filter_In in Hin.
  - intros [= <-]. left. split; [reflexivity | now left].
Qed.

End Reachable.

(** ** The search for the lock file *)

Lemma parts_eqb_eq (l l' : list string) : Path.parts_eqb l l' = true <-> l = l'.
Proof.
  revert l'. induction l as [|x r IH]; intros [|x' r']; simpl;
    try (split; [discriminate | congruence]); [split; reflexivity|].
  rewrite andb_true_iff, String.eqb_eq, IH. split.
  - now intros [-> ->].
  - intros [= -> ->]. now split.
Qed.

(** [Path.eqb] is equality of paths. *)
Lemma path_eqb_eq (p q : Path.t) : Path.eqb p q = true <-> p = q.
Proof.
  unfold Path.eqb. destruct p as [a l], q as [a' l']. simpl.
  rewrite andb_true_iff, eqb_true_iff, parts_eqb_eq. split.
  - now intros [-> ->].
  - intros [= -> ->]. now split.
Qed.

Lemma path_eqb_neq (p q : Path.t) : Path.eqb p q = false <-> p <> q.
Proof.
  destruct (Path.eqb p q) eqn:E.
  - apply path_eqb_eq in E. split; [discriminate | congruence].
  - split; [|reflexivity]. intros _ Heq. apply path_eqb_eq in Heq. congruence.
Qed.

(** The loop's way of going up is [parent], and its test for the root is
    [current == current.parent]. *)
Lemma parent_of_current (absolute : bool) (x : string) (up : list string) :
  Path.parent (Path.mk absolute (rev (x :: up))) = Path.mk absolute (rev up).
Proof. unfold Path.parent. simpl. now rewrite removelast_last. Qed.

Lemma own_parent_iff_root (p : Path.t) :
  Path.eqb p (Path.parent p) = true <-> Path.parts p = [].
Proof.
  rewrite path_eqb_eq. destruct p as [a l]. unfold Path.parent. simpl. split.
  - intros [= Hl]. induction l as [|x l _] using rev_ind; [reflexivity|].
    rewrite removelast_last in Hl.
    apply (f_equal (@List.length string)) in Hl. rewrite length_app in Hl.
    simpl in Hl. lia.
  - now intros ->.
Qed.

Section Search.
Context `{LockSource}.
Variable poetry_lock_filename : string.


Lemma lineage_cons absolute x up :
  lineage absolute (x :: up)
  = Path.mk absolute (rev (x :: up)) :: lineage absolute up.
Proof. reflexivity. Qed.

(** The loop returns [found] exactly when, going up from [current], the first
    directory with a match has [found] as its only match and no directory below
    it is [e]. *)
Lemma search_loop_found (e : Path.t) absolute below found :
  search_loop (Some e) poetry_lock_filename absolute below = inr found <->
  exists before dir after,
    lineage absolute below = (before ++ dir :: after)%list /\
    path_glob dir poetry_lock_filename = [found] /\
    forall d, In d before -> path_glob d poetry_lock_filename = [] /\ d <> e.
Proof.
  induction below as [|x up IH].
  - cbn [search_loop lineage]. split.
    + destruct (path_glob _ poetry_lock_filename) as [|f [|g more]] eqn:Hg;
        try discriminate.
      intros [= <-]. exists [], (Path.mk absolute (rev [])), [].
      split; [reflexivity|]. split; [assumption | intros d []].
    + intros (before & dir & after & E & Hdir & Hbefore).
      destruct before as [|d0 before].
      * injection E as <- _. cbn [rev] in *. now rewrite Hdir.
      * injection E as _ E. destruct before; discriminate.
  - rewrite lineage_cons. cbn [search_loop]. split.
    + destruct (path_glob _ poetry_lock_filename) as [|f [|g more]] eqn:Hg;
        try discriminate.
      * destruct (Path.eqb e _) eqn:He; [discriminate|]. intros Hs.
        apply IH in Hs as (before & dir & after & E & Hdir & Hbefore).
        exists (Path.mk absolute (rev (x :: up)) :: before), dir, after.
        split; [now rewrite E|]. split; [assumption|].
        intros d [<-|Hd]; [|now apply Hbefore].
        split; [assumption|]. apply path_eqb_neq in He. congruence.
      * intros [= <-].
        exists [], (Path.mk absolute (rev (x :: up))), (lineage absolute up).
        split; [reflexivity|]. split; [assumption | intros d []].
    + intros (before & dir & after & E & Hdir & Hbefore).
      destruct before as [|d0 before].
      * injection E as <- _. cbn [rev] in *. now rewrite Hdir.
      * injection E as <- E.
        destruct (Hbefore _ (or_introl eq_refl)) as [Hg Hne].
        cbn [rev] in *. rewrite Hg.
        assert (He : Path.eqb e (Path.mk absolute (rev up ++ [x])%list) = false).
        { apply path_eqb_neq. congruence. }
        rewrite He. apply IH. exists before, dir, after.
        split; [assumption|]. split; [assumption|].
        intros d Hd. apply Hbefore. now right.
Qed.

(** The loop does not go above [e]: with no match from [current] up to [e],
    it gives up whatever lies higher. *)
Lemma search_loop_stops (e : Path.t) absolute below before after :
  lineage absolute below = (before ++ e :: after)%list ->
  (forall d, In d (before ++ [e]) -> path_glob d poetry_lock_filename = []) ->
  search_loop (Some e) poetry_lock_filename absolute below
  = inl (NoPoetryLockFileFoundError (not_found_message poetry_lock_filename)).
Proof.
  revert before. induction below as [|x up IH]; intros before E Hnone.
  - cbn [search_loop lineage rev] in *.
    destruct before as [|d0 before];
      [|injection E as _ E; destruct before; discriminate].
    injection E as <- _. now rewrite (Hnone _ (or_introl eq_refl)).
  - rewrite lineage_cons in E. cbn [search_loop rev] in *.
    destruct before as [|d0 before].
    + injection E as <- _. rewrite (Hnone _ (or_introl eq_refl)).
      assert (He : Path.eqb (Path.mk absolute (rev up ++ [x])%list)
                     (Path.mk absolute (rev up ++ [x])%list) = true)
        by now apply path_eqb_eq.
      now rewrite He.
    + injection E as <- E. rewrite (Hnone _ (or_introl eq_refl)).
      destruct (Path.eqb e _); [reflexivity|].
      apply (IH before E). intros d Hd. apply Hnone. now right.
Qed.

(** Several matches in the first directory that has one fail the [assert]. *)
Lemma search_loop_ambiguous (e : Path.t) absolute below before dir after f g more :
  lineage absolute below = (before ++ dir :: after)%list ->
  (forall d, In d before -> path_glob d poetry_lock_filename = [] /\ d <> e) ->
  path_glob dir poetry_lock_filename = f :: g :: more ->
  search_loop (Some e) poetry_lock_filename absolute below = inl AssertionError.
Proof.
  revert before. induction below as [|x up IH]; intros before E Hbefore Hdir.
  - cbn [search_loop lineage rev] in *.
    destruct before as [|d0 before];
      [|injection E as _ E; destruct before; discriminate].
    injection E as <- _. now rewrite Hdir.
  - rewrite lineage_cons in E. cbn [search_loop rev] in *.
    destruct before as [|d0 before].
    + injection E as <- _. now rewrite Hdir.
    + injection E as <- E.
      destruct (Hbefore _ (or_introl eq_refl)) as [Hg Hne].
      rewrite Hg.
      assert (He : Path.eqb e (Path.mk absolute (rev up ++ [x])%list) = false).
      { apply path_eqb_neq. congruence. }
      rewrite He. apply (IH before E); [|assumption].
      intros d Hd. apply Hbefore. now right.
Qed.

(** With no match anywhere up to the root the loop gives up, whatever [e]. *)
Lemma search_loop_nothing (e : Path.t) absolute below :
  (forall d, In d (lineage absolute below) ->
     path_glob d poetry_lock_filename = []) ->
  search_loop (Some e) poetry_lock_filename absolute below
  = inl (NoPoetryLockFileFoundError (not_found_message poetry_lock_filename)).
Proof.
  induction below as [|x up IH]; intros Hnone.
  - cbn [search_loop lineage rev] in *. now rewrite (Hnone _ (or_introl eq_refl)).
  - rewrite lineage_cons in Hnone. cbn [search_loop rev] in *.
    rewrite (Hnone _ (or_introl eq_refl)).
    destruct (Path.eqb e _); [reflexivity|].
    apply IH. intros d Hd. apply Hnone. now right.
Qed.

(** A path that is not anchored is none of the directories above an anchored
    one. *)
Lemma lineage_absolute (below : list string) (d : Path.t) :
  In d (lineage true below) -> Path.absolute d = true.
Proof.
  induction below as [|x up IH]; cbn [lineage].
  - intros [<-|[]]. reflexivity.
  - intros [<-|Hd]; [reflexivity | now apply IH].
Qed.

(** X10. The search returns a path exactly when, going up from the resolved
    [base_path], the first directory in which the pattern has a match has that
    path as its only match, and no directory below it is [end_dir]: the lock
    file nearest to [base_path] is taken, directories above it are not looked
    at. *)
Theorem search_finds_nearest_lock_file (base e found : Path.t) :
  _search_tree_for_lock_file (Some base) (Some e) poetry_lock_filename = inr found
  <->
  exists before dir after,
    ancestors (path_resolve base) = (before ++ dir :: after)%list /\
    path_glob dir poetry_lock_filename = [found] /\
    forall d, In d before -> path_glob d poetry_lock_filename = [] /\ d <> e.
Proof. unfold _search_tree_for_lock_file, ancestors. apply search_loop_found. Qed.

(** X11. The search does not go above [end_dir]: when [end_dir] is the resolved
    [base_path] or a directory above it and no directory from the one up to the
    other has a match, [NoPoetryLockFileFoundError] is raised, the message
    naming the pattern, even if a directory above [end_dir] holds a lock
    file. *)
Theorem search_stops_at_end_dir (base e : Path.t) (before after : list Path.t) :
  ancestors (path_resolve base) = (before ++ e :: after)%list ->
  (forall d, In d (before ++ [e]) -> path_glob d poetry_lock_filename = []) ->
  exists msg,
    _search_tree_for_lock_file (Some base) (Some e) poetry_lock_filename
    = inl (NoPoetryLockFileFoundError msg) /\
    contains msg poetry_lock_filename.
Proof.
  intros E Hnone. exists (not_found_message poetry_lock_filename). split.
  - unfold _search_tree_for_lock_file. now apply (search_loop_stops e _ _ before after).
  - apply contains_infix.
Qed.

(** X12. When the first directory with a match, going up from the resolved
    [base_path] (and not past [end_dir]), has more than one match, the search
    fails its [assert]: [AssertionError] is raised, not one of the module's own
    exceptions. *)
Theorem search_refuses_several_matches (base e dir : Path.t)
    (before after : list Path.t) (f g : Path.t) (more : list Path.t) :
  ancestors (path_resolve base) = (before ++ dir :: after)%list ->
  (forall d, In d before -> path_glob d poetry_lock_filename = [] /\ d <> e) ->
  path_glob dir poetry_lock_filename = f :: g :: more ->
  _search_tree_for_lock_file (Some base) (Some e) poetry_lock_filename
  = inl AssertionError.
Proof.
  intros E Hbefore Hdir. unfold _search_tree_for_lock_file.
  now apply (search_loop_ambiguous e _ _ before dir after f g more).
Qed.

End Search.

(** ** The constructor *)

Section Constructor.
Context `{Externals} `{LockSource}.


(** What the constructor does once the attributes are set. *)
Lemma init_with_paths (base_path end_dir : PathArgument) (b : Path.t)
    (poetry_lock_filename : string) (e : option Path.t) (records : list Emitted) :
  base_path_attribute base_path = Some b ->
  match end_dir with
  | PassNone => (Some (Path.parent b), [])
  | PassStr s => (Some (path_of_string s), [])
  | PassPath p => (Some p, [])
  | PassOther =>
      (None, [LoggerDebug "Value of end_dir must be None, str, or pathlib.Path"])
  end = (e, records) ->
  __init__ base_path end_dir poetry_lock_filename =
  match _search_tree_for_lock_file (Some b) e poetry_lock_filename with
  | inl raised => mkConstruction (inl raised) records
  | inr found =>
      match _parse_poetry_lock found with
      | inl raised => mkConstruction (inl raised) records
      | inr parsed =>
          mkConstruction (inr (mkConstructed (Some b) e found (init parsed))) records
      end
  end.
Proof.
  intros Hb He. unfold __init__. rewrite Hb.
  destruct base_path; try discriminate;
    destruct end_dir; injection He as <- <-; reflexivity.
Qed.


(** X14. A [base_path] that is not anchored (as the default, [Path(".")]), with
    [end_dir] left out, is searched up to the root: its parent, which [end_dir]
    then is, is not anchored either and so is none of the directories above
    the resolved [base_path]; the lock file in the nearest of these directories
    is found, however far up, and the object is built from it. *)
Theorem relative_base_path_searches_to_the_root (base_path : PathArgument)
    (b : Path.t) (poetry_lock_filename : string) (before after : list Path.t)
    (dir found : Path.t) (parsed : PoetryLockConfig.t) :
  base_path_attribute base_path = Some b ->
  Path.absolute b = false ->
  Path.absolute (path_resolve b) = true ->
  ancestors (path_resolve b) = (before ++ dir :: after)%list ->
  (forall d, In d before -> path_glob d poetry_lock_filename = []) ->
  path_glob dir poetry_lock_filename = [found] ->
  _parse_poetry_lock found = inr parsed ->
  __init__ base_path PassNone poetry_lock_filename
  = mkConstruction
      (inr (mkConstructed (Some b) (Some (Path.parent b)) found (init parsed))) [].
Proof.
  intros Hattr Hrel Habs Ha Hbefore Hdir Hparse.
  rewrite (init_with_paths base_path PassNone b _ (Some (Path.parent b)) []
             Hattr eq_refl).
  assert (Hfound : _search_tree_for_lock_file (Some b) (Some (Path.parent b))
                     poetry_lock_filename = inr found).
  { unfold _search_tree_for_lock_file. apply search_loop_found.
    exists before, dir, after.
    split; [assumption|]. split; [assumption|].
    intros d Hd. split; [now apply Hbefore|]. intros ->.
    assert (Hin : In (Path.parent b) (ancestors (path_resolve b))).
    { rewrite Ha. apply in_or_app. now left. }
    unfold ancestors in Hin. rewrite Habs in Hin.
    apply lineage_absolute in Hin. cbn [Path.parent Path.absolute] in Hin.
    congruence. }
  now rewrite Hfound, Hparse.
Qed.

(** X15. A [base_path] that is neither [None], a [str] nor a [Path] is not
    refused where it is seen: a debug record is all it gets, the attribute is
    left unset, and the constructor then fails with [AttributeError], whatever
    [end_dir] and the file system are. *)
Theorem other_base_path_fails_late (end_dir : PathArgument)
    (poetry_lock_filename : string) :
  built (__init__ PassOther end_dir poetry_lock_filename)
  = inl (Raised (AttributeError "'PoetryLock' object has no attribute 'base_path'"))
  /\
  hd_error (logged (__init__ PassOther end_dir poetry_lock_filename))
  = Some (LoggerDebug "Value of base_path must be None, str, or pathlib.Path").
Proof. destruct end_dir; split; reflexivity. Qed.

End Constructor.

(** ** The lock as loaded *)

Section Loaded.
Context `{Externals} `{LockSource}.

Lemma parsed_lock_version (path : Path.t) (parsed : PoetryLockConfig.t) :
  _parse_poetry_lock path = inr parsed ->
  PoetryLockMetadata.lock_version (PoetryLockConfig.metadata parsed) = "2.0".
Proof.
  unfold _parse_poetry_lock.
  destruct (create_poetry (Path.parent path)) as [e|poetry]; [discriminate|].
  destruct (Poetry.is_locked poetry); [|discriminate].
  now intros [= <-].
Qed.

(** A built object holds the lock parsed at the path the search returned. *)
Lemma built_object (base_path end_dir : PathArgument)
    (poetry_lock_filename : string) (c : Constructed) :
  built (__init__ base_path end_dir poetry_lock_filename) = inr c ->
  exists parsed,
    _parse_poetry_lock (poetry_lock_path c) = inr parsed /\ object c = init parsed.
Proof.
  unfold __init__. cbv zeta.
  destruct (match end_dir with
            | PassNone => _ | PassStr s => _ | PassPath p => _ | PassOther => _
            end) as [e|[self_end_dir logged_end]]; [discriminate|].
  destruct (_search_tree_for_lock_file _ _ _) as [e|found]; [discriminate|].
  destruct (_parse_poetry_lock found) as [e|parsed] eqn:Hparse; [discriminate|].
  cbn [built]. intros [= <-]. cbn [poetry_lock_path object]. now exists parsed.
Qed.

(** X16. The validator's check of the schema version cannot fail on an object
    built by the constructor: the lock it parses always has [lock_version]
    [2.0], so whatever methods are then called on the object, in any order,
    [validate_poetry_lock] never raises [InvalidLockVersionError]. *)
Theorem constructed_lock_passes_schema_check (base_path end_dir : PathArgument)
    (poetry_lock_filename : string) (c : Constructed) (self : PoetryLock) :
  built (__init__ base_path end_dir poetry_lock_filename) = inr c ->
  reachable (data (object c)) self ->
  value (validate_poetry_lock self) <> inl InvalidLockVersionError.
Proof.
  intros Hbuilt Hreach.
  destruct (built_object _ _ _ _ Hbuilt) as (parsed & Hparse & Hobject).
  rewrite Hobject in Hreach. cbn [init data] in Hreach.
  destruct (reachable_coherent _ _ Hreach) as (Hdata & _).
  rewrite validate_poetry_lock_unfold.
  destruct (python_target_env_spec self) as [env|]; [|discriminate].
  cbv zeta. rewrite Hdata, (parsed_lock_version _ _ Hparse).
  change (startswith "2.0" "2.") with true. cbn iota.
  destruct (valid_py_version _ env); discriminate.
Qed.

Lemma dict_get_absent (d : list (string * string)) (key default : string) :
  (forall v, ~ In (key, v) d) -> dict_get d key default = default.
Proof.
  induction d as [|[k v] d IH]; intros Habsent; simpl; [reflexivity|].
  destruct (String.eqb_spec k key) as [->|_].
  - destruct (Habsent v). now left.
  - apply IH. intros v' Hin. apply (Habsent v'). now right.
Qed.

(** X17. A lock file whose metadata has no [python-versions] entry is loaded
    with the empty string for it, which the validator takes as no constraint:
    the lock is then valid for every environment supplied. *)
Theorem lock_without_python_versions_suits_every_environment (path : Path.t)
    (poetry : Poetry.t) (parsed : PoetryLockConfig.t) (env : PythonEnvironment) :
  create_poetry (Path.parent path) = inr poetry ->
  _parse_poetry_lock path = inr parsed ->
  (forall metadata v,
     Poetry.lock_data_metadata poetry = Some metadata ->
     ~ In ("python-versions", v) metadata) ->
  PoetryLockMetadata.python_versions (PoetryLockConfig.metadata parsed) = Some "" /\
  value (validate_poetry_lock
           (after (add_target_environment_specification env (init parsed))))
  = inr tt /\
  poetry_lock_is_validated
    (after (validate_poetry_lock
              (after (add_target_environment_specification env (init parsed)))))
  = true.
Proof.
  intros Hpoetry Hparse Habsent. unfold _parse_poetry_lock in Hparse.
  rewrite Hpoetry in Hparse.
  destruct (Poetry.is_locked poetry); [|discriminate].
  cbn [negb] in Hparse. injection Hparse as <-.
  assert (Hget : dict_get
                   match Poetry.lock_data_metadata poetry with
                   | Some metadata => metadata
                   | None => []
                   end "python-versions" "" = "").
  { destruct (Poetry.lock_data_metadata poetry) as [metadata|] eqn:Hm;
      [|reflexivity].
    apply dict_get_absent. intros v. now apply Habsent. }
  cbn [PoetryLockConfig.metadata PoetryLockMetadata.python_versions].
  rewrite Hget. split; [reflexivity|].
  rewrite add_target_environment_specification_unfold. cbn [after init].
  rewrite validate_poetry_lock_unfold. split; reflexivity.
Qed.

(** X18. The loaded lock has one package for each package Poetry has locked,
    in the same order, with the same name, version and interpreter constraint
    and the same files, each with its hash. *)
Theorem parsed_packages_are_the_locked_ones (path : Path.t) (poetry : Poetry.t)
    (parsed : PoetryLockConfig.t) :
  create_poetry (Path.parent path) = inr poetry ->
  _parse_poetry_lock path = inr parsed ->
  Forall2 (fun locked package =>
             PoetryPackage.name package = LockedPackage.name locked /\
             PoetryPackage.version package = LockedPackage.version locked /\
             PoetryPackage.python_versions package
             = LockedPackage.python_constraint locked /\
             map (fun f => (PoetryFile.file f, PoetryFile.hash f))
               (PoetryPackage.files package)
             = LockedPackage.files locked)
    (Poetry.locked_packages poetry) (PoetryLockConfig.packages parsed).
Proof.
  intros Hpoetry Hparse. unfold _parse_poetry_lock in Hparse.
  rewrite Hpoetry in Hparse.
  destruct (Poetry.is_locked poetry); [|discriminate].
  cbn [negb] in Hparse. injection Hparse as <-. cbn [PoetryLockConfig.packages].
  induction (Poetry.locked_packages poetry) as [|locked rest IH];
    cbn [map]; constructor; [|exact IH].
  repeat split. cbn [convert_package PoetryPackage.files]. rewrite map_map.
  cbn [PoetryFile.file PoetryFile.hash].
  induction (LockedPackage.files locked) as [|[f h] l IHl]; [reflexivity|].
  cbn [map fst snd]. now rewrite IHl.
Qed.

(** X19. A requirement carries an index URL exactly when its package was locked
    with a source type and a source URL that is not empty, and the URL is then
    that one: a URL without a source type is dropped when the lock is loaded. *)
Theorem index_url_needs_source_type (locked : LockedPackage.t)
    (dist : PoetryFile.t) (u : string) :
  PythonRequirement.index_url (requirement (convert_package locked) dist) = Some u
  <->
  truthy (LockedPackage.source_type locked) = true /\
  LockedPackage.source_url locked = Some u /\ u <> "".
Proof.
  unfold requirement, source_url, convert_package.
  cbn [PythonRequirement.index_url PoetryPackage.source].
  destruct (truthy (LockedPackage.source_type locked)).
  - cbn [PoetrySource.url]. unfold truthy.
    destruct (LockedPackage.source_url locked) as [u'|].
    + destruct (String.eqb_spec u' "") as [->|Hne]; cbn [negb].
      * split; [discriminate|]. intros (_ & [= <-] & Hne). now destruct Hne.
      * split; [intros [= <-]; now repeat split|]. now intros (_ & [= <-] & _).
    + split; [discriminate | now intros (_ & [=] & _)].
  - split; [discriminate | now intros ([=] & _)].
Qed.

End Loaded.

(** ** The three stages, when they return *)

Section Resolved.
Context `{Externals}.

(** X20. When the three stages in sequence return, an environment was set, the
    list returned is not empty and has one requirement for each package the
    filter keeps of the lock, in the lock's order, each with the hash of one of
    its package's own files; and the object is left validated. *)
Theorem resolve_returns_one_requirement_per_kept_package (self : PoetryLock)
    (returned : option (list PythonRequirement.t)) :
  value (resolve self) = inr returned ->
  exists env reqs,
    python_target_env_spec self = Some env /\
    returned = Some reqs /\ reqs <> [] /\
    Forall2 (fun package r =>
               exists dist,
                 In dist (PoetryPackage.files package) /\
                 r = requirement package dist)
      (kept_packages env (PoetryLockConfig.packages (data self))) reqs /\
    poetry_lock_is_validated (after (resolve self)) = true.
Proof.
  rewrite resolve_unfold.
  destruct (python_target_env_spec self) as [env|]; [|discriminate].
  cbv zeta. destruct (startswith _ "2."); [|discriminate].
  destruct (valid_py_version _ env); [|discriminate].
  destruct (kept_packages env (PoetryLockConfig.packages (data self)))
    as [|package kept] eqn:Hkept; [discriminate|].
  cbn [value after].
  destruct (snd (choose_all (supported_tags env) (package :: kept))) eqn:Hfailed;
    [discriminate|].
  intros [= <-].
  exists env,
    (requirements_of (fst (choose_all (supported_tags env) (package :: kept)))).
  pose proof (choose_all_chosen (supported_tags env) (package :: kept)) as Hall.
  rewrite (choose_all_complete _ _ Hfailed) in Hall.
  split; [reflexivity|]. split; [reflexivity|]. split.
  - intros Hnil. rewrite Hnil in Hall. inversion Hall.
  - split; [rewrite Hkept; exact Hall | reflexivity].
Qed.

End Resolved.

(** ** Instances of the further properties *)

Lemma best_dist_chosen_only_so_witness :
  (exists i,
     first_minimal (supported_tags cpython311) (PoetryPackage.files numpy)
       (PoetryFile.mk "numpy-1.26.0-cp311-cp311-manylinux_2_17_x86_64.whl"
          "sha256:2222") i) \/
  (none_matches (supported_tags cpython311) (PoetryPackage.files numpy) /\
   (forall d, In d (PoetryPackage.files numpy) -> is_binary d -> is_universal d) /\
   first_source (PoetryPackage.files numpy)
     (PoetryFile.mk "numpy-1.26.0-cp311-cp311-manylinux_2_17_x86_64.whl"
        "sha256:2222")).
Proof.
  exact (best_dist_chosen_only_so (supported_tags cpython311) numpy _ eq_refl).
Defined.

Lemma best_dist_order_independent_witness :
  best_dist (supported_tags cpython311) (rev (PoetryPackage.files numpy))
  = best_dist (supported_tags cpython311) (PoetryPackage.files numpy).
Proof.
  apply best_dist_order_independent.
  - apply Permutation_rev.
  - exists (PoetryFile.mk "numpy-1.26.0-cp311-abi3-manylinux_2_17_x86_64.whl"
              "sha256:1111"), 1.
    split; [simpl; auto | split; reflexivity].
  - intros d d' i Hd Hd' [_ Hm] [_ Hm']. simpl in Hd, Hd'.
    repeat (destruct Hd as [<-|Hd]; [|]);
      try (destruct Hd);
      repeat (destruct Hd' as [<-|Hd']; [|]);
      try (destruct Hd');
      first [reflexivity | vm_compute in Hm, Hm'; congruence].
Defined.

Lemma selector_returns_one_requirement_per_package_witness :
  exists packages reqs,
    valid_package_list (filtered (lock_of "2.0" None [requests; numpy]))
    = Some packages /\ packages <> [] /\
    Some [PythonRequirement.mk "requests" "2.31.0" "sha256:58cd" None;
          PythonRequirement.mk "numpy" "1.26.0" "sha256:2222" None]
    = Some reqs /\
    package_requirements
      (after (get_preferred_distributions
                (filtered (lock_of "2.0" None [requests; numpy]))))
    = Some reqs /\
    Forall2 (fun package r =>
               exists dist,
                 In dist (PoetryPackage.files package) /\
                 r = PythonRequirement.mk (PoetryPackage.name package)
                       (PoetryPackage.version package) (PoetryFile.hash dist)
                       (source_url package))
      packages reqs.
Proof.
  exact (selector_returns_one_requirement_per_package
           (filtered (lock_of "2.0" None [requests; numpy])) _ eq_refl).
Defined.

Lemma validated_is_never_cleared_witness :
  poetry_lock_is_validated
    (after (validate_poetry_lock
              (after (add_target_environment_specification cpython27
                        (validated (lock_of "2.0" (Some "3") [requests]))))))
  = true /\
  value (validate_poetry_lock
           (after (add_target_environment_specification cpython27
                     (validated (lock_of "2.0" (Some "3") [requests])))))
  = inl (InvalidLockFileError
           "Poetry lock file not compatible with target Python version").
Proof.
  split; [|reflexivity].
  apply (validated_is_never_cleared
           (after (add_target_environment_specification cpython27
                     (validated (lock_of "2.0" (Some "3") [requests]))))).
  apply (validated_is_never_cleared
           (validated (lock_of "2.0" (Some "3") [requests]))).
  reflexivity.
Defined.


Lemma reachable_filtered (parsed : PoetryLockConfig.t) :
  reachable parsed (filtered parsed).
Proof.
  unfold filtered, validated.
  apply reachable_get_valid_packages_from_lock, reachable_validate_poetry_lock.
  change (loaded parsed)
    with (after (add_target_environment_specification cpython311 (init parsed))).
  apply reachable_add_target_environment_specification, reachable_init.
Defined.

Lemma reachable_objects_are_coherent_witness :
  data (after (get_preferred_distributions
                 (filtered (lock_of "2.0" None [requests; legacy_pkg]))))
  = lock_of "2.0" None [requests; legacy_pkg] /\
  forall reqs r,
    package_requirements
      (after (get_preferred_distributions
                (filtered (lock_of "2.0" None [requests; legacy_pkg]))))
    = Some reqs ->
    In r reqs ->
    exists package dist,
      In package
        (PoetryLockConfig.packages (lock_of "2.0" None [requests; legacy_pkg])) /\
      In dist (PoetryPackage.files package) /\ r = requirement package dist.
Proof.
  destruct (reachable_objects_are_coherent
              (lock_of "2.0" None [requests; legacy_pkg])
              (after (get_preferred_distributions
                        (filtered (lock_of "2.0" None [requests; legacy_pkg]))))
              (reachable_get_preferred_distributions _ _ (reachable_filtered _)))
    as (Hdata & _ & _ & Hreqs).
  split; [exact Hdata | exact Hreqs].
Defined.

Lemma selector_errors_on_reachable_objects_witness :
  (IncompatibleDistributionError (incompatible_message legacy_pkg)
   = MissingLockMetadataError not_validated_message /\
   (valid_package_list (filtered (lock_of "2.0" None [requests; legacy_pkg])) = None \/
    valid_package_list (filtered (lock_of "2.0" None [requests; legacy_pkg]))
    = Some [])) \/
  (exists env package,
     python_target_env_spec (filtered (lock_of "2.0" None [requests; legacy_pkg]))
     = Some env /\
     In package
       (PoetryLockConfig.packages (lock_of "2.0" None [requests; legacy_pkg])) /\
     best_dist (supported_tags env) (PoetryPackage.files package) = None /\
     IncompatibleDistributionError (incompatible_message legacy_pkg)
     = IncompatibleDistributionError (incompatible_message package)).
Proof.
  exact (selector_errors_on_reachable_objects
           (lock_of "2.0" None [requests; legacy_pkg])
           (filtered (lock_of "2.0" None [requests; legacy_pkg]))
           (IncompatibleDistributionError (incompatible_message legacy_pkg))
           (reachable_filtered _) eq_refl).
Defined.

Lemma search_stops_at_end_dir_witness :
  exists msg,
    _search_tree_for_lock_file (Some (posix_path "/home/user/project/src/pkg"))
      (Some (posix_path "/home/user/project/src")) "poetry.lock"
    = inl (NoPoetryLockFileFoundError msg) /\
    contains msg "poetry.lock".
Proof.
  apply (search_stops_at_end_dir "poetry.lock"
           (posix_path "/home/user/project/src/pkg")
           (posix_path "/home/user/project/src")
           [posix_path "/home/user/project/src/pkg"]
           [project_directory; Path.mk true ["home"; "user"];
            Path.mk true ["home"]; Path.mk true []]).
  - reflexivity.
  - intros d [<-|[<-|[]]]; reflexivity.
Defined.

Lemma search_refuses_several_matches_witness :
  _search_tree_for_lock_file (Some (posix_path ".")) (Some (Path.mk true []))
    "*.lock"
  = inl AssertionError.
Proof.
  apply (search_refuses_several_matches "*.lock" (posix_path ".")
           (Path.mk true []) project_directory
           [Path.mk true working_directory]
           [Path.mk true ["home"; "user"]; Path.mk true ["home"]; Path.mk true []]
           (Path.mk true ["home"; "user"; "project"; "poetry.lock"])
           (Path.mk true ["home"; "user"; "project"; "yarn.lock"]) []).
  - reflexivity.
  - intros d [<-|[]]. split; [reflexivity | discriminate].
  - reflexivity.
Defined.


Lemma relative_base_path_searches_to_the_root_witness :
  __init__ PassNone PassNone "poetry.lock"
  = mkConstruction
      (inr (mkConstructed (Some (posix_path "."))
              (Some (Path.parent (posix_path ".")))
              (Path.mk true ["home"; "user"; "project"; "poetry.lock"])
              (init project_lock)))
      [].
Proof.
  apply (relative_base_path_searches_to_the_root PassNone (posix_path ".")
           "poetry.lock" [Path.mk true working_directory]
           [Path.mk true ["home"; "user"]; Path.mk true ["home"]; Path.mk true []]
           project_directory
           (Path.mk true ["home"; "user"; "project"; "poetry.lock"])
           project_lock);
    try reflexivity.
  intros d [<-|[]]. reflexivity.
Defined.

Lemma constructed_lock_passes_schema_check_witness :
  value (validate_poetry_lock
           (after (add_target_environment_specification cpython27
                     (init project_lock))))
  <> inl InvalidLockVersionError.
Proof.
  apply (constructed_lock_passes_schema_check PassNone PassNone "poetry.lock"
           (mkConstructed (Some (posix_path "."))
              (Some (Path.parent (posix_path ".")))
              (Path.mk true ["home"; "user"; "project"; "poetry.lock"])
              (init project_lock))).
  - reflexivity.
  - apply reachable_add_target_environment_specification, reachable_init.
Defined.

Lemma lock_without_python_versions_suits_every_environment_witness :
  PoetryLockMetadata.python_versions (PoetryLockConfig.metadata project_lock)
  = Some "" /\
  value (validate_poetry_lock
           (after (add_target_environment_specification cpython27
                     (init project_lock))))
  = inr tt /\
  poetry_lock_is_validated
    (after (validate_poetry_lock
              (after (add_target_environment_specification cpython27
                        (init project_lock)))))
  = true.
Proof.
  apply (lock_without_python_versions_suits_every_environment
           (Path.mk true ["home"; "user"; "project"; "poetry.lock"])
           project_poetry project_lock cpython27); try reflexivity.
  intros metadata v [= <-] [Hin|[Hin|[]]]; discriminate.
Defined.

Lemma parsed_packages_are_the_locked_ones_witness :
  Forall2 (fun locked package =>
             PoetryPackage.name package = LockedPackage.name locked /\
             PoetryPackage.version package = LockedPackage.version locked /\
             PoetryPackage.python_versions package
             = LockedPackage.python_constraint locked /\
             map (fun f => (PoetryFile.file f, PoetryFile.hash f))
               (PoetryPackage.files package)
             = LockedPackage.files locked)
    (Poetry.locked_packages project_poetry)
    (PoetryLockConfig.packages project_lock).
Proof.
  apply (parsed_packages_are_the_locked_ones
           (Path.mk true ["home"; "user"; "project"; "poetry.lock"])
           project_poetry project_lock); reflexivity.
Defined.

Lemma resolve_returns_one_requirement_per_kept_package_witness :
  exists env reqs,
    python_target_env_spec
      (loaded (lock_of "2.0" (Some "3") [requests; backport; numpy]))
    = Some env /\
    Some [PythonRequirement.mk "requests" "2.31.0" "sha256:58cd" None;
          PythonRequirement.mk "numpy" "1.26.0" "sha256:2222" None]
    = Some reqs /\ reqs <> [] /\
    Forall2 (fun package r =>
               exists dist,
                 In dist (PoetryPackage.files package) /\
                 r = requirement package dist)
      (kept_packages env
         (PoetryLockConfig.packages
            (data (loaded (lock_of "2.0" (Some "3") [requests; backport; numpy])))))
      reqs /\
    poetry_lock_is_validated
      (after (resolve (loaded (lock_of "2.0" (Some "3") [requests; backport; numpy]))))
    = true.
Proof.
  exact (resolve_returns_one_requirement_per_kept_package
           (loaded (lock_of "2.0" (Some "3") [requests; backport; numpy])) _
           eq_refl).
Defined.
